(** * bibcheck.py: a shallow embedding of [src/bibcheck.py]

    The script resolves every entry of a BibTeX file on Google Scholar,
    fetches the articles citing each resolved entry, counts how often each
    citing article occurs and reports those that occur more than once.

    The class [bibchecker] is embedded as a record of its attributes
    together with the part of the outside world the methods act on (the
    Scholar service, the terminal, the output file).  Methods are
    computations in a state-and-exception monad over that record. *)

From Stdlib Require Import ZArith String Ascii DecimalString Permutation Sorted.
From stdpp Require Import base list strings.

(** ** Python values the script handles *)

(** Exceptions the modelled statements can raise. *)
Inductive exn :=
| SystemExit | IndexError | KeyError | TypeError | AssertionError | AttributeError.

Definition exn_eqb (a b : exn) : bool :=
  match a, b with
  | SystemExit, SystemExit | IndexError, IndexError | KeyError, KeyError
  | TypeError, TypeError | AssertionError, AssertionError
  | AttributeError, AttributeError => true
  | _, _ => false
  end.

(** Modelled from the spec: the result record of the citation-index client
    ([scholar.ScholarArticle], not part of this repository).  It exposes
    [num_citations] (an integer count), [cluster_id] (an opaque string, or
    Python's [None]) and [title] by key lookup. *)
Record ScholarArticle := {
  art_num_citations : Z;
  art_cluster_id : option string;
  art_title : string }.

(** [scholar.SearchScholarQuery()]: a fresh query has no attribute set;
    [set_words], [set_cites_id] and [set_start] fill them in. *)
Record SearchScholarQuery := {
  words : option string;
  cites_id : option string;
  start : option Z }.

Definition new_query : SearchScholarQuery :=
  {| words := None; cites_id := None; start := None |}.
Definition set_words (w : string) (q : SearchScholarQuery) :=
  {| words := Some w; cites_id := cites_id q; start := start q |}.
Definition set_cites_id (c : option string) (q : SearchScholarQuery) :=
  {| words := words q; cites_id := c; start := start q |}.
Definition set_start (s : Z) (q : SearchScholarQuery) :=
  {| words := words q; cites_id := cites_id q; start := Some s |}.

(** A citing article as [get_citers] records it: the tuple
    [(cluster_id, title)]. *)
Definition CiterRecord : Type := option string * string.

(** One entry of [bibtex_db.entries], a Python dict.  For the keys the
    script adds, the outer [option] says whether the key is in the dict and
    the inner one whether its value is [None]. *)
Record Reference := {
  title : string;
  num_citations : option (option Z);
  cluster_id : option (option string);
  cited_by : option (list CiterRecord) }.

Definition setitem_num_citations (v : option Z) (r : Reference) : Reference :=
  {| title := title r; num_citations := Some v;
     cluster_id := cluster_id r; cited_by := cited_by r |}.
Definition setitem_cluster_id (v : option string) (r : Reference) : Reference :=
  {| title := title r; num_citations := num_citations r;
     cluster_id := Some v; cited_by := cited_by r |}.
Definition setitem_cited_by (v : list CiterRecord) (r : Reference) : Reference :=
  {| title := title r; num_citations := num_citations r;
     cluster_id := cluster_id r; cited_by := Some v |}.

(** Modelled from the spec: an entry as [bibtexparser.load] returns it, with
    [title] filled from the file and none of the later keys present. *)
Definition loaded_entry (t : string) : Reference :=
  {| title := t; num_citations := None; cluster_id := None; cited_by := None |}.

(** [ref['cluster_id']] and [ref['num_citations']]: [KeyError] when the key
    is not in the dict. *)
Definition getitem_cluster_id (r : Reference) : exn + option string :=
  match cluster_id r with Some v => inr v | None => inl KeyError end.
Definition getitem_num_citations (r : Reference) : exn + option Z :=
  match num_citations r with Some v => inr v | None => inl KeyError end.

(** ** Built-ins *)

Definition CR : string := String "013"%char EmptyString.
Definition LF : string := String "010"%char EmptyString.

(** [str(n)] for an integer. *)
Definition str (n : Z) : string := NilZero.string_of_int (Z.to_int n).

(** [range(lo, hi, step)] for a positive [step], as CPython computes it:
    the length first, then item [i] is [lo + i * step]. *)
Definition range_length (lo hi step : Z) : Z :=
  if (lo <? hi)%Z then ((hi - lo - 1) / step + 1)%Z else 0%Z.
Definition py_range (lo hi step : Z) : list Z :=
  map (fun i => (lo + Z.of_nat i * step)%Z)
      (seq 0 (Z.to_nat (range_length lo hi step))).

(** The format spec [{:<19}]: left-justify in a field of the given width,
    padding with spaces; longer text is not cut. *)
Fixpoint spaces (n : nat) : string :=
  match n with O => EmptyString | S n' => String " "%char (spaces n') end.
Definition ljust (width : nat) (s : string) : string :=
  s +:+ spaces (width - String.length s).

(** ['{:<19}{}'.format(ct, title)] *)
Definition format_row (ct : Z) (t : string) : string := ljust 19 (str ct) +:+ t.

Definition header : string := "Citations shared   Title".

(** ** [collections.Counter] over citer records

    A [Counter] is a dict; it iterates in insertion order, and raising the
    count of a key that is already there keeps its position. *)
Definition Counter : Type := list (CiterRecord * Z).

(** One step of [Counter.update]: [c[k] = c.get(k, 0) + 1]. *)
Fixpoint count_element (k : CiterRecord) (c : Counter) : Counter :=
  match c with
  | [] => [(k, 1%Z)]
  | (k', n) :: c' =>
      if decide (k = k') then (k', (n + 1)%Z) :: c'
      else (k', n) :: count_element k c'
  end.

(** [Counter(iterable)] *)
Definition Counter_of (l : list CiterRecord) : Counter :=
  fold_left (fun c k => count_element k c) l [].

(** [c[k]]: a key that is missing counts 0. *)
Fixpoint counter_get (c : Counter) (k : CiterRecord) : Z :=
  match c with
  | [] => 0%Z
  | (k', n) :: c' => if decide (k = k') then n else counter_get c' k
  end.

(** [c.items()] *)
Definition items (c : Counter) : list (CiterRecord * Z) := c.

(** [c.most_common()] is [sorted(c.items(), key=itemgetter(1),
    reverse=True)]: a stable sort, so entries of equal count keep their
    order of insertion. *)
Fixpoint insert_desc (x : CiterRecord * Z) (l : list (CiterRecord * Z)) :=
  match l with
  | [] => [x]
  | y :: l' => if (snd y <=? snd x)%Z then x :: y :: l' else y :: insert_desc x l'
  end.
Definition most_common (c : Counter) : list (CiterRecord * Z) :=
  foldr insert_desc [] (items c).

(** A list comprehension [[x for x in l if cond(x)]] whose condition can
    raise; the result lists the positions of the elements kept, since the
    elements are the dicts of [l] themselves. *)
Fixpoint comprehension {A} (cond : A -> exn + bool) (i : nat) (l : list A)
  : exn + list nat :=
  match l with
  | [] => inr []
  | x :: l' =>
      match cond x with
      | inl e => inl e
      | inr b =>
          match comprehension cond (S i) l' with
          | inl e => inl e
          | inr r => inr (if b then i :: r else r)
          end
      end
  end.

(** Arguments of a call as Python passes them. *)
Inductive pyobj := PyInt (n : Z) | PyStr (s : string).

(** ** A small Scholar service to run the script on

    Two articles, titled A and B, each cited ten times; X cites both of them
    and Y cites A only.  Any other search finds nothing. *)
Definition sample_article (n : Z) (c t : string) : ScholarArticle :=
  {| art_num_citations := n; art_cluster_id := Some c; art_title := t |}.

Definition sample_scholar (q : SearchScholarQuery) (w : unit)
  : list ScholarArticle * unit :=
  (match words q, cites_id q, start q with
   | Some w, None, _ =>
       if String.eqb w "A" then [sample_article 10 "cA" "A"]
       else if String.eqb w "B" then [sample_article 10 "cB" "B"]
       else []
   | None, Some c, Some 0%Z =>
       if String.eqb c "cA"
       then [sample_article 7 "cX" "X"; sample_article 0 "cY" "Y"]
       else if String.eqb c "cB" then [sample_article 7 "cX" "X"]
       else []
   | _, _, _ => []
   end, w).

(** A service that knows every title but gives its single result no cluster
    identifier, as for an article nothing links to. *)
Definition unclustered_scholar (q : SearchScholarQuery) (w : unit)
  : list ScholarArticle * unit :=
  ([{| art_num_citations := 5; art_cluster_id := None; art_title := "A" |}], w).

(** ** The class [bibchecker] and the world it runs in *)

Section Bibchecker.

(** The Scholar service.  A query sent in some state of the service yields
    the result page that [querier.articles] holds afterwards, and the next
    state of the service.  The client reports a failed request as an empty
    page. *)
Context {World : Type}.
Variable scholar_response :
  SearchScholarQuery -> World -> list ScholarArticle * World.

Record bibchecker := Bibchecker {
  (* attributes of the object *)
  querier_articles : list ScholarArticle;    (* [self.querier.articles] *)
  bibfile : option string;
  rmax : Z;
  bibtex_db : option (list Reference);       (* [self.bibtex_db.entries] *)
  counter : option Counter;
  (* the world *)
  bib_titles : list string;     (* titles of the entries parsed from [bibfile] *)
  cookie_jar : option string;   (* [scholar.ScholarConf.COOKIE_JAR_FILE] *)
  scholar : World;
  sent : list SearchScholarQuery;            (* queries sent so far *)
  stdout : list string;                      (* one string per [print] *)
  outfile : option (string * list string) }. (* the file opened for writing *)

Definition with_bibtex_db (v : option (list Reference)) (st : bibchecker) :=
  Bibchecker (querier_articles st) (bibfile st) (rmax st) v (counter st)
    (bib_titles st) (cookie_jar st) (scholar st) (sent st) (stdout st) (outfile st).
Definition with_counter (v : option Counter) (st : bibchecker) :=
  Bibchecker (querier_articles st) (bibfile st) (rmax st) (bibtex_db st) v
    (bib_titles st) (cookie_jar st) (scholar st) (sent st) (stdout st) (outfile st).
Definition with_cookie_jar (v : option string) (st : bibchecker) :=
  Bibchecker (querier_articles st) (bibfile st) (rmax st) (bibtex_db st) (counter st)
    (bib_titles st) v (scholar st) (sent st) (stdout st) (outfile st).
Definition with_stdout (v : list string) (st : bibchecker) :=
  Bibchecker (querier_articles st) (bibfile st) (rmax st) (bibtex_db st) (counter st)
    (bib_titles st) (cookie_jar st) (scholar st) (sent st) v (outfile st).
Definition with_outfile (v : option (string * list string)) (st : bibchecker) :=
  Bibchecker (querier_articles st) (bibfile st) (rmax st) (bibtex_db st) (counter st)
    (bib_titles st) (cookie_jar st) (scholar st) (sent st) (stdout st) v.
Definition with_query (q : SearchScholarQuery) (st : bibchecker) :=
  let (arts, w) := scholar_response q (scholar st) in
  Bibchecker arts (bibfile st) (rmax st) (bibtex_db st) (counter st)
    (bib_titles st) (cookie_jar st) w (sent st ++ [q]) (stdout st) (outfile st).

(** *** Statements: state passing with exceptions *)

Definition M (A : Type) : Type := bibchecker -> (exn + A) * bibchecker.

Definition ret {A} (a : A) : M A := fun st => (inr a, st).
Definition raise {A} (e : exn) : M A := fun st => (inl e, st).
Definition bind {A B} (m : M A) (k : A -> M B) : M B :=
  fun st => match m st with
            | (inl e, st') => (inl e, st')
            | (inr a, st') => k a st'
            end.
(** [try: m except e: h] *)
Definition try_except {A} (m : M A) (e : exn) (h : M A) : M A :=
  fun st => match m st with
            | (inl e', st') => if exn_eqb e' e then h st' else (inl e', st')
            | r => r
            end.
Definition lift {A} (r : exn + A) : M A :=
  match r with inl e => raise e | inr a => ret a end.

Notation "'let*' x := m 'in' k" := (bind m (fun x => k))
  (at level 10, x name, m at level 100, k at level 200).
Notation "m >> k" := (bind m (fun _ => k))
  (at level 90, right associativity).

Fixpoint for_each {A} (l : list A) (body : A -> M unit) : M unit :=
  match l with
  | [] => ret tt
  | x :: l' => body x >> for_each l' body
  end.

(** [print(s, end=e)] *)
Definition print (s e : string) : M unit :=
  fun st => (inr tt, with_stdout (stdout st ++ [s +:+ e]) st).

(** [exit()] *)
Definition exit : M unit := raise SystemExit.

(** [self.querier.send_query(query)] *)
Definition send_query (q : SearchScholarQuery) : M unit :=
  fun st => (inr tt, with_query q st).

Definition get_articles : M (list ScholarArticle) :=
  fun st => (inr (querier_articles st), st).

(** [l[i]] on a list *)
Definition index {A} (l : list A) (i : nat) : M A :=
  match l !! i with Some x => ret x | None => raise IndexError end.

(** [assert self.bibtex_db is not None] *)
Definition assert_bibtex_db : M unit :=
  fun st => match bibtex_db st with
            | Some _ => (inr tt, st)
            | None => (inl AssertionError, st)
            end.

(** [self.bibtex_db.entries] *)
Definition entries : M (list Reference) :=
  fun st => match bibtex_db st with
            | Some es => (inr es, st)
            | None => (inl AttributeError, st)
            end.

(** The dict that a loop variable bound to [entries[i]] refers to. *)
Definition entry (i : nat) : M Reference :=
  let* es := entries in index es i.

(** [ref[key] = v] on the dict at position [i]: the entry is changed in
    place, so every later read of [entries] sees it. *)
Definition setitem (i : nat) (f : Reference -> Reference) : M unit :=
  fun st => match bibtex_db st with
            | Some es => (inr tt, with_bibtex_db (Some (alter f i es)) st)
            | None => (inl AttributeError, st)
            end.

(** *** [__init__], [load_cookie], [load_bibfile] *)

Definition load_cookie (cookie_file : string) : M unit :=
  fun st => (inr tt, with_cookie_jar (Some cookie_file) st).

(** The object after [bibchecker(bibfile, rmax, cookie_file)], in a world
    where parsing [bibfile] gives entries with the titles [titles]. *)
Definition init (titles : list string) (w : World)
    (file : string) (r : Z) (cookie_file : option string) : bibchecker :=
  let st := Bibchecker [] (Some file) r None None titles None w [] [] None in
  match cookie_file with
  | Some f => if String.eqb f "" then st else snd (load_cookie f st)
  | None => st
  end.

(** [load_bibfile]: the world holds what parsing [bibfile] yields, so the
    runs modelled are those in which the file opens and parses; a file that
    cannot be read ends the script here and is not among them. *)
Definition load_bibfile : M unit :=
  fun st => match bibfile st with
            | None => (inl AssertionError, st)
            | Some _ =>
                (inr tt, with_bibtex_db (Some (map loaded_entry (bib_titles st))) st)
            end.

(** *** [update_db] *)

(** The progress text of the [i]-th round, and the query it sends. *)
Definition update_db_progress (total i : nat) : string :=
  "Trying to get cluster ID for article "
    +:+ str (Z.of_nat i + 1) +:+ "/" +:+ str (Z.of_nat total).
Definition title_query (article : Reference) : SearchScholarQuery :=
  set_words (title article) new_query.

Definition update_db_body (total i : nat) : M unit :=
  print (update_db_progress total i) CR >>
  let* article := entry i in
  let query := title_query article in
  send_query query >>
  try_except
    (let* arts := get_articles in
     let* sch_article := index arts 0 in
     setitem i (setitem_num_citations (Some (art_num_citations sch_article))) >>
     setitem i (setitem_cluster_id (art_cluster_id sch_article)))
    IndexError
    (setitem i (setitem_num_citations None) >>
     setitem i (setitem_cluster_id None)).

(** The [for] loop of [update_db]. *)
Definition update_db_loop : M unit :=
  let* es := entries in
  for_each (seq 0 (length es)) (update_db_body (length es)).

Definition is_not_None {A} (v : option A) : bool :=
  match v with Some _ => true | None => false end.

Definition captcha_error : string :=
  "Error: failed to pull Google Scholar cluster IDs. Probably running into a captcha.".

Definition update_db : M unit :=
  assert_bibtex_db >>
  update_db_loop >>
  print "" LF >>
  let* es := entries in
  let* updated :=
    lift (comprehension
            (fun ref => match getitem_cluster_id ref with
                        | inl e => inl e
                        | inr c => inr (is_not_None c)
                        end) 0 es) in
  if Nat.eqb (length updated) 0 then
    print captcha_error LF >>
    exit
  else ret tt.

(** *** [get_citers] *)

(** The condition of the comprehension building [to_check]:
    [ref['cluster_id'] is not None and ref['num_citations'] < self.rmax].
    [and] does not look at its right side when the left one is false;
    comparing [None] with an integer raises [TypeError]. *)
Definition to_check_cond (r : Z) (ref : Reference) : exn + bool :=
  match getitem_cluster_id ref with
  | inl e => inl e
  | inr None => inr false
  | inr (Some _) =>
      match getitem_num_citations ref with
      | inl e => inl e
      | inr None => inl TypeError
      | inr (Some n) => inr (n <? r)%Z
      end
  end.

Definition page_query (cid : option string) (s : Z) : SearchScholarQuery :=
  set_start s (set_cites_id cid new_query).

(** One round of the inner loop: a page of citers fetched and appended. *)
Definition get_citers_page (i : nat) (citers : list ScholarArticle) (s : Z)
  : M (list ScholarArticle) :=
  let* ref := entry i in
  let* cid := lift (getitem_cluster_id ref) in
  let query := page_query cid s in
  send_query query >>
  let* arts := get_articles in
  ret (citers ++ arts).

Fixpoint get_citers_pages (i : nat) (citers : list ScholarArticle) (starts : list Z)
  : M (list ScholarArticle) :=
  match starts with
  | [] => ret citers
  | s :: starts' =>
      let* citers' := get_citers_page i citers s in
      get_citers_pages i citers' starts'
  end.

Definition get_citers_progress (total j : nat) : string :=
  "Getting citations for article "
    +:+ str (Z.of_nat j + 1) +:+ "/" +:+ str (Z.of_nat total).

Definition citer_record (sch_art : ScholarArticle) : CiterRecord :=
  (art_cluster_id sch_art, art_title sch_art).

(** The body of the outer loop, for the [j]-th element of [to_check], which
    is the dict at position [i] of [entries]. *)
Definition get_citers_body (total : nat) (ji : nat * nat) : M unit :=
  let (j, i) := ji in
  print (get_citers_progress total j) CR >>
  let* ref := entry i in
  let* n := lift (getitem_num_citations ref) in
  let* stop := match n with Some v => ret v | None => raise TypeError end in
  let* citers := get_citers_pages i [] (py_range 0 stop 20) in
  setitem i (setitem_cited_by (map citer_record citers)).

Definition to_check : M (list nat) :=
  fun st => match bibtex_db st with
            | Some es => (comprehension (to_check_cond (rmax st)) 0 es, st)
            | None => (inl AttributeError, st)
            end.

Definition get_citers : M unit :=
  assert_bibtex_db >>
  let* checked := to_check in
  for_each (combine (seq 0 (length checked)) checked)
           (get_citers_body (length checked)) >>
  print "" LF.

(** *** [find_common] *)

Definition has_cited_by (a : Reference) : bool := is_not_None (cited_by a).

(** [citations_list.extend(article['cited_by'])] *)
Definition extend_cited_by (citations_list : list CiterRecord) (a : Reference)
  : list CiterRecord :=
  citations_list ++ default [] (cited_by a).

Definition citations_list (es : list Reference) : list CiterRecord :=
  fold_left extend_cited_by (List.filter has_cited_by es) [].

Definition find_common : M unit :=
  assert_bibtex_db >>
  let* es := entries in
  fun st => (inr tt, with_counter (Some (Counter_of (citations_list es))) st).

(** *** [do_check] *)

Definition do_check : M unit :=
  load_bibfile >> update_db >> get_citers >> find_common.

(** *** [print_results] and [save_results] *)

Definition assert_counter : M Counter :=
  fun st => match counter st with
            | Some c => (inr c, st)
            | None => (inl AssertionError, st)
            end.

Definition print_results : M unit :=
  let* c := assert_counter in
  print header LF >>
  for_each (items c)
    (fun '(key, ct) =>
       if (1 <? ct)%Z then print (format_row ct (snd key)) LF else ret tt).

(** [open(outfile, 'w')]: the file is created, or emptied. *)
Definition open_w (path : string) : M unit :=
  fun st => (inr tt, with_outfile (Some (path, [])) st).

(** [o.write(...)] on a text file: the method takes exactly one argument,
    a [str]; any other call raises [TypeError] and writes nothing. *)
Definition file_write (args : list pyobj) : M unit :=
  fun st => match args, outfile st with
            | [PyStr s], Some (path, chunks) =>
                (inr tt, with_outfile (Some (path, chunks ++ [s])) st)
            | _, _ => (inl TypeError, st)
            end.

Definition save_results (path : string) : M unit :=
  let* c := assert_counter in
  open_w path >>
  for_each (most_common c)
    (fun '(key, ct) =>
       if (1 <? ct)%Z then file_write [PyInt ct; PyStr (snd key)] else ret tt).

(** *** The script *)

Definition main (titles : list string) (w : World)
    (file : string) (out : option string) (cookie_file : option string) (r : Z)
  : (exn + unit) * bibchecker :=
  (do_check >>
   match out with
   | Some path => save_results path
   | None => print_results
   end) (init titles w file r cookie_file).

(** ** What the passes compute, as functions of the service

    These definitions follow the wording of the specification; the theorems
    below relate them to the methods above. *)

(** The pages the service returns for queries sent one after the other, and
    the state it is left in. *)
Fixpoint responses (qs : list SearchScholarQuery) (w : World)
  : list (list ScholarArticle) * World :=
  match qs with
  | [] => ([], w)
  | q :: qs' =>
      let (page, w1) := scholar_response q w in
      let (pages, w2) := responses qs' w1 in
      (page :: pages, w2)
  end.

(** Resolver: on a result, copy the count and the cluster identifier of the
    top result into the reference; on an empty result set, set both to
    null. *)
Definition resolve_with (page : list ScholarArticle) (ref : Reference) : Reference :=
  match page with
  | top :: _ =>
      setitem_cluster_id (art_cluster_id top)
        (setitem_num_citations (Some (art_num_citations top)) ref)
  | [] => setitem_cluster_id None (setitem_num_citations None ref)
  end.

(** Citer Fetcher: the references with a non-null cluster identifier and
    [num_citations] strictly below the ceiling. *)
Definition selected (ceiling : Z) (ref : Reference) : bool :=
  match cluster_id ref, num_citations ref with
  | Some (Some _), Some (Some n) => (n <? ceiling)%Z
  | _, _ => false
  end.

(** The page queries for one reference: none unless it is selected. *)
Definition queries_of (ceiling : Z) (ref : Reference) : list SearchScholarQuery :=
  match cluster_id ref, num_citations ref with
  | Some (Some c), Some (Some n) =>
      if (n <? ceiling)%Z then map (page_query (Some c)) (py_range 0 n 20) else []
  | _, _ => []
  end.

(** The references after the fetch: each selected one gets the citers of
    its pages, in the order received. *)
Fixpoint fetch_all (ceiling : Z) (es : list Reference) (w : World) : list Reference :=
  match es with
  | [] => []
  | ref :: es' =>
      let (pages, w1) := responses (queries_of ceiling ref) w in
      (if selected ceiling ref
       then setitem_cited_by (map citer_record (concat pages)) ref
       else ref) :: fetch_all ceiling es' w1
  end.

(** The positions of the elements of a list that satisfy a test. *)
Fixpoint positions {A} (p : A -> bool) (i : nat) (l : list A) : list nat :=
  match l with
  | [] => []
  | x :: l' => if p x then i :: positions p (S i) l' else positions p (S i) l'
  end.

(** What the Resolver leaves behind: both keys are in the dict, and a
    non-null cluster identifier comes with an integer count. *)
Definition well_resolved (ref : Reference) : Prop :=
  exists c, cluster_id ref = Some c /\
    match c with
    | Some _ => exists n, num_citations ref = Some (Some n)
    | None => num_citations ref <> None
    end.

(** A reference whose cluster identifier is a string, not [None]. *)
Definition has_cluster_id (ref : Reference) : bool :=
  match cluster_id ref with Some (Some _) => true | _ => false end.

Definition citer_eq_dec (x y : CiterRecord) : {x = y} + {x <> y} := decide (x = y).

(** Occurrences of a citer record in a list. *)
Definition occurrences (l : list CiterRecord) (k : CiterRecord) : Z :=
  Z.of_nat (count_occ citer_eq_dec l k).

(** * Proofs *)

(** ** Lists and the service *)

Lemma last_cons_default {A} (l : list A) (a d : A) :
  List.last (a :: l) d = List.last l a.
Proof.
  revert a d. induction l as [|b l IH]; intros a d; [reflexivity|].
  change (List.last (a :: b :: l) d) with (List.last (b :: l) d).
  rewrite !IH. reflexivity.
Qed.

Lemma last_app_default {A} (l1 l2 : list A) (d : A) :
  List.last (l1 ++ l2) d = List.last l2 (List.last l1 d).
Proof.
  revert d. induction l1 as [|x l1 IH]; intros d; [reflexivity|].
  rewrite <- app_comm_cons, !last_cons_default. apply IH.
Qed.

Lemma responses_app qs1 qs2 w :
  responses (qs1 ++ qs2) w =
  (fst (responses qs1 w) ++ fst (responses qs2 (snd (responses qs1 w))),
   snd (responses qs2 (snd (responses qs1 w)))).
Proof.
  revert w. induction qs1 as [|q qs1 IH]; intros w; simpl.
  - destruct (responses qs2 w); reflexivity.
  - destruct (scholar_response q w) as [page w1]. rewrite IH.
    destruct (responses qs1 w1) as [pages w2]. reflexivity.
Qed.

Lemma responses_length qs w : length (fst (responses qs w)) = length qs.
Proof.
  revert w. induction qs as [|q qs IH]; intros w; simpl; [reflexivity|].
  destruct (scholar_response q w) as [page w1]. specialize (IH w1).
  destruct (responses qs w1). simpl in *. congruence.
Qed.

(** ** Running statements *)

Lemma bind_ok {A B} (m : M A) (k : A -> M B) st a st' :
  m st = (inr a, st') -> bind m k st = k a st'.
Proof. intros H. unfold bind. rewrite H. reflexivity. Qed.

Lemma bind_raise {A B} (m : M A) (k : A -> M B) st e st' :
  m st = (inl e, st') -> bind m k st = (inl e, st').
Proof. intros H. unfold bind. rewrite H. reflexivity. Qed.

Lemma alter_middle {A} (f : A -> A) (l1 l2 : list A) (x : A) :
  alter f (length l1) (l1 ++ x :: l2) = l1 ++ f x :: l2.
Proof. rewrite <- (Nat.add_0_r (length l1)), alter_app_r. reflexivity. Qed.

(** ** The loop of [update_db] *)

Lemma update_db_body_eq total done ref todo qa bf r c bt cj w s out fl :
  update_db_body total (length done)
    (Bibchecker qa bf r (Some (done ++ ref :: todo)) c bt cj w s out fl)
  = (inr tt,
     Bibchecker (fst (scholar_response (title_query ref) w)) bf r
       (Some (done ++ resolve_with (fst (scholar_response (title_query ref) w)) ref
                :: todo))
       c bt cj (snd (scholar_response (title_query ref) w))
       (s ++ [title_query ref])
       (out ++ [update_db_progress total (length done) +:+ CR]) fl).
Proof.
  unfold update_db_body, bind, print, entry, entries, index, send_query,
    try_except, get_articles, setitem, with_stdout, with_query, with_bibtex_db.
  cbn -[alter]. rewrite list_lookup_middle by reflexivity. cbn -[alter].
  destruct (scholar_response (title_query ref) w) as [page w1].
  destruct page as [|top page]; cbn -[alter]; rewrite !alter_middle; reflexivity.
Qed.

Lemma update_db_loop_from todo : forall done total qa bf r c bt cj w s out fl,
  for_each (seq (length done) (length todo)) (update_db_body total)
    (Bibchecker qa bf r (Some (done ++ todo)) c bt cj w s out fl)
  = (inr tt,
     Bibchecker (List.last (fst (responses (map title_query todo) w)) qa) bf r
       (Some (done ++ zip_with resolve_with
                         (fst (responses (map title_query todo) w)) todo))
       c bt cj (snd (responses (map title_query todo) w))
       (s ++ map title_query todo)
       (out ++ map (fun i => update_db_progress total i +:+ CR)
                   (seq (length done) (length todo))) fl).
Proof.
  induction todo as [|ref todo IH]; intros.
  - simpl. rewrite !app_nil_r. reflexivity.
  - cbn [length seq for_each map responses].
    erewrite bind_ok by apply update_db_body_eq.
    specialize (IH (done ++ [resolve_with (fst (scholar_response (title_query ref) w)) ref])).
    rewrite length_app, Nat.add_1_r in IH. rewrite <- !app_assoc in IH.
    cbn [app] in IH. rewrite IH. clear IH.
    destruct (scholar_response (title_query ref) w) as [page w1].
    cbn [fst snd].
    destruct (responses (map title_query todo) w1) as [pages w2].
    cbn [fst snd zip_with]. rewrite last_cons_default, <- !app_assoc.
    reflexivity.
Qed.

Lemma update_db_loop_eq es qa bf r c bt cj w s out fl :
  update_db_loop (Bibchecker qa bf r (Some es) c bt cj w s out fl)
  = (inr tt,
     Bibchecker (List.last (fst (responses (map title_query es) w)) qa) bf r
       (Some (zip_with resolve_with (fst (responses (map title_query es) w)) es))
       c bt cj (snd (responses (map title_query es) w))
       (s ++ map title_query es)
       (out ++ map (fun i => update_db_progress (length es) i +:+ CR)
                   (seq 0 (length es))) fl).
Proof.
  unfold update_db_loop. erewrite bind_ok by reflexivity.
  apply (update_db_loop_from es []).
Qed.

Lemma comprehension_positions {A} (cond : A -> exn + bool) (p : A -> bool) l :
  Forall (fun x => cond x = inr (p x)) l ->
  forall i, comprehension cond i l = inr (positions p i l).
Proof.
  induction 1 as [|x l Hx _ IH]; intros i; simpl; [reflexivity|].
  rewrite Hx, IH. destruct (p x); reflexivity.
Qed.

Lemma positions_nil {A} (p : A -> bool) l i :
  positions p i l = [] <-> Forall (fun x => p x = false) l.
Proof.
  revert i. induction l as [|x l IH]; intros i; simpl.
  - split; auto.
  - destruct (p x) eqn:Hp.
    + split; [discriminate|]. intros H. inversion H; congruence.
    + rewrite IH. split; [constructor; assumption|].
      intros H. inversion H; assumption.
Qed.

Lemma elem_of_positions {A} (p : A -> bool) l i k :
  k ∈ positions p i l <-> exists x, l !! (k - i) = Some x /\ p x = true /\ i <= k.
Proof.
  revert i. induction l as [|x l IH]; intros i; simpl.
  - rewrite elem_of_nil. split; [tauto|]. intros (y & Hy & _). discriminate.
  - assert (Hrest : k ∈ positions p (S i) l <->
                    exists y, (x :: l) !! (k - i) = Some y /\ p y = true /\ S i <= k).
    { rewrite IH. split; intros (y & Hy & Hp & Hle); exists y.
      - replace (k - i) with (S (k - S i)) by lia. auto.
      - replace (k - i) with (S (k - S i)) in Hy by lia. auto. }
    assert (Hhere : forall y, (x :: l) !! (k - i) = Some y -> i <= k -> k <> i -> S i <= k)
      by (intros; lia).
    destruct (p x) eqn:Hp.
    + rewrite elem_of_cons, Hrest. split.
      * intros [->|(y & Hy & Hpy & Hle)].
        -- exists x. rewrite Nat.sub_diag. auto.
        -- exists y. repeat split; auto. lia.
      * intros (y & Hy & Hpy & Hle). destruct (decide (k = i)) as [->|Hne]; [left; reflexivity|].
        right. exists y. repeat split; auto. lia.
    + rewrite Hrest. split.
      * intros (y & Hy & Hpy & Hle). exists y. repeat split; auto. lia.
      * intros (y & Hy & Hpy & Hle). destruct (decide (k = i)) as [->|Hne].
        -- rewrite Nat.sub_diag in Hy. simpl in Hy. congruence.
        -- exists y. repeat split; auto. lia.
Qed.

Lemma resolve_with_cluster_id page ref :
  getitem_cluster_id (resolve_with page ref) = inr (match page with
                                                     | top :: _ => art_cluster_id top
                                                     | [] => None
                                                     end).
Proof. destruct page; reflexivity. Qed.

Lemma resolve_with_well_resolved page ref : well_resolved (resolve_with page ref).
Proof.
  destruct page as [|top page]; simpl.
  - exists None. split; [reflexivity|discriminate].
  - exists (art_cluster_id top). split; [reflexivity|].
    destruct (art_cluster_id top); [eexists; reflexivity|discriminate].
Qed.

Lemma Forall_zip_with_resolved pages es :
  Forall well_resolved (zip_with resolve_with pages es).
Proof.
  revert es. induction pages as [|page pages IH]; intros [|ref es]; simpl;
    constructor; auto using resolve_with_well_resolved.
Qed.

Lemma well_resolved_cluster_cond ref :
  well_resolved ref ->
  match getitem_cluster_id ref with
  | inl e => inl e
  | inr c => inr (is_not_None c)
  end = inr (has_cluster_id ref).
Proof.
  intros (c & Hc & _). unfold getitem_cluster_id, has_cluster_id. rewrite Hc.
  destruct c; reflexivity.
Qed.

(** [update_db] on an object whose bibliography is loaded. *)
Lemma update_db_eq es qa bf r c bt cj w s out fl :
  update_db (Bibchecker qa bf r (Some es) c bt cj w s out fl) =
  let pages := fst (responses (map title_query es) w) in
  let es' := zip_with resolve_with pages es in
  let out' := out ++ map (fun i => update_db_progress (length es) i +:+ CR)
                         (seq 0 (length es)) ++ [LF] in
  let st' o := Bibchecker (List.last pages qa) bf r (Some es') c bt cj
                 (snd (responses (map title_query es) w))
                 (s ++ map title_query es) o fl in
  if Nat.eqb (length (positions has_cluster_id 0 es')) 0
  then (inl SystemExit, st' (out' ++ [captcha_error +:+ LF]))
  else (inr tt, st' out').
Proof.
  unfold update_db. erewrite bind_ok by reflexivity.
  erewrite bind_ok by apply update_db_loop_eq.
  erewrite bind_ok by reflexivity. erewrite bind_ok by reflexivity.
  cbn [app length]. unfold with_stdout. cbn [querier_articles bibfile rmax bibtex_db counter
    bib_titles cookie_jar scholar sent stdout outfile].
  rewrite (comprehension_positions _ has_cluster_id).
  2:{ eapply Forall_impl; [apply Forall_zip_with_resolved|].
      intros ref Href. apply well_resolved_cluster_cond, Href. }
  cbn [lift]. erewrite bind_ok by reflexivity.
  rewrite <- app_assoc.
  destruct (Nat.eqb _ 0); reflexivity.
Qed.

(** ** [get_citers] *)

Lemma get_citers_pages_eq starts :
  forall citers done ref todo cid qa bf r c bt cj w s out fl,
  cluster_id ref = Some cid ->
  get_citers_pages (length done) citers starts
    (Bibchecker qa bf r (Some (done ++ ref :: todo)) c bt cj w s out fl)
  = (inr (citers ++ concat (fst (responses (map (page_query cid) starts) w))),
     Bibchecker (List.last (fst (responses (map (page_query cid) starts) w)) qa)
       bf r (Some (done ++ ref :: todo)) c bt cj
       (snd (responses (map (page_query cid) starts) w))
       (s ++ map (page_query cid) starts) out fl).
Proof.
  induction starts as [|s0 starts IH]; intros * Hcid.
  - simpl. rewrite !app_nil_r. reflexivity.
  - cbn [get_citers_pages map responses].
    assert (Hpage : get_citers_page (length done) citers s0
              (Bibchecker qa bf r (Some (done ++ ref :: todo)) c bt cj w s out fl)
            = (inr (citers ++ fst (scholar_response (page_query cid s0) w)),
               Bibchecker (fst (scholar_response (page_query cid s0) w)) bf r
                 (Some (done ++ ref :: todo)) c bt cj
                 (snd (scholar_response (page_query cid s0) w))
                 (s ++ [page_query cid s0]) out fl)).
    { unfold get_citers_page, bind, entry, entries, index, lift, send_query,
        get_articles, with_query, getitem_cluster_id, ret, raise.
      cbn. rewrite list_lookup_middle by reflexivity. cbn. rewrite Hcid. cbn.
      destruct (scholar_response (page_query cid s0) w); reflexivity. }
    erewrite bind_ok by apply Hpage. rewrite (IH _ _ _ _ cid) by assumption.
    destruct (scholar_response (page_query cid s0) w) as [page w1]. cbn [fst snd].
    destruct (responses (map (page_query cid) starts) w1) as [pages w2].
    cbn [fst snd concat]. rewrite last_cons_default, <- !app_assoc. reflexivity.
Qed.

Lemma get_citers_body_eq total j done ref todo cid n qa bf r c bt cj w s out fl :
  cluster_id ref = Some cid ->
  num_citations ref = Some (Some n) ->
  let qs := map (page_query cid) (py_range 0 n 20) in
  get_citers_body total (j, length done)
    (Bibchecker qa bf r (Some (done ++ ref :: todo)) c bt cj w s out fl)
  = (inr tt,
     Bibchecker (List.last (fst (responses qs w)) qa) bf r
       (Some (done ++ setitem_cited_by
                        (map citer_record (concat (fst (responses qs w)))) ref
                :: todo))
       c bt cj (snd (responses qs w)) (s ++ qs)
       (out ++ [get_citers_progress total j +:+ CR]) fl).
Proof.
  intros Hcid Hn qs. unfold get_citers_body.
  erewrite bind_ok by reflexivity.
  erewrite bind_ok.
  2:{ unfold entry, entries, index, bind, with_stdout. cbn.
      rewrite list_lookup_middle by reflexivity. reflexivity. }
  unfold getitem_num_citations. rewrite Hn. cbn [lift].
  erewrite bind_ok by reflexivity. erewrite bind_ok by reflexivity.
  erewrite bind_ok by (apply get_citers_pages_eq, Hcid).
  unfold setitem. cbn -[alter]. rewrite alter_middle. reflexivity.
Qed.

Lemma to_check_cond_inr r ref b :
  to_check_cond r ref = inr b ->
  b = selected r ref /\
  if b then exists c n, cluster_id ref = Some (Some c) /\
                        num_citations ref = Some (Some n) /\
                        queries_of r ref = map (page_query (Some c)) (py_range 0 n 20)
  else queries_of r ref = [].
Proof.
  unfold to_check_cond, getitem_cluster_id, getitem_num_citations, selected, queries_of.
  destruct (cluster_id ref) as [[c|]|]; try discriminate.
  - destruct (num_citations ref) as [[n|]|]; try discriminate.
    intros [= <-]. split; [reflexivity|].
    destruct (n <? r)%Z; [eauto|reflexivity].
  - intros [= <-]. auto.
Qed.

Lemma get_citers_loop_from todo :
  forall done idxs j total qa bf r c bt cj w s out fl,
  comprehension (to_check_cond r) (length done) todo = inr idxs ->
  let qs := flat_map (queries_of r) todo in
  for_each (combine (seq j (length idxs)) idxs) (get_citers_body total)
    (Bibchecker qa bf r (Some (done ++ todo)) c bt cj w s out fl)
  = (inr tt,
     Bibchecker (List.last (fst (responses qs w)) qa) bf r
       (Some (done ++ fetch_all r todo w)) c bt cj (snd (responses qs w))
       (s ++ qs)
       (out ++ map (fun j => get_citers_progress total j +:+ CR)
                   (seq j (length idxs))) fl).
Proof.
  induction todo as [|ref todo IH]; intros * Hidx qs; subst qs.
  - simpl in Hidx. injection Hidx as <-. simpl. rewrite !app_nil_r. reflexivity.
  - cbn [comprehension] in Hidx.
    destruct (to_check_cond r ref) as [|b] eqn:Hcond; [discriminate|].
    destruct (comprehension (to_check_cond r) (S (length done)) todo)
      as [|idxs'] eqn:Hrest; [discriminate|].
    injection Hidx as <-.
    apply to_check_cond_inr in Hcond as [Hsel Hqs].
    cbn [flat_map fetch_all]. rewrite responses_app, <- Hsel.
    destruct b.
    + destruct Hqs as (cid & n & Hcid & Hn & Hqs). rewrite Hqs.
      cbn [length seq combine for_each].
      erewrite bind_ok by (eapply get_citers_body_eq; eassumption).
      specialize (IH (done ++ [setitem_cited_by
        (map citer_record
           (concat (fst (responses (map (page_query (Some cid)) (py_range 0 n 20)) w))))
        ref]) idxs' (S j) total).
      rewrite length_app, Nat.add_1_r in IH. rewrite <- !app_assoc in IH.
      cbn [app] in IH. rewrite IH by assumption. clear IH.
      destruct (responses (map (page_query (Some cid)) (py_range 0 n 20)) w)
        as [pages w1].
      cbn [fst snd]. rewrite last_app_default, <- !app_assoc. reflexivity.
    + rewrite Hqs. cbn [responses fst snd app].
      specialize (IH (done ++ [ref]) idxs' j total).
      rewrite length_app, Nat.add_1_r in IH. rewrite <- !app_assoc in IH.
      cbn [app] in IH. rewrite IH by assumption. rewrite <- !app_assoc.
      reflexivity.
Qed.

(** [get_citers] on an object whose bibliography is loaded: either the
    comprehension building [to_check] raises and nothing else happens, or
    every page query of every selected reference is sent. *)
Lemma get_citers_eq es qa bf r c bt cj w s out fl :
  get_citers (Bibchecker qa bf r (Some es) c bt cj w s out fl) =
  match comprehension (to_check_cond r) 0 es with
  | inl e => (inl e, Bibchecker qa bf r (Some es) c bt cj w s out fl)
  | inr idxs =>
      let qs := flat_map (queries_of r) es in
      (inr tt,
       Bibchecker (List.last (fst (responses qs w)) qa) bf r
         (Some (fetch_all r es w)) c bt cj (snd (responses qs w)) (s ++ qs)
         (out ++ map (fun j => get_citers_progress (length idxs) j +:+ CR)
                     (seq 0 (length idxs)) ++ [LF]) fl)
  end.
Proof.
  unfold get_citers. erewrite bind_ok by reflexivity.
  destruct (comprehension (to_check_cond r) 0 es) as [e|idxs] eqn:Hidx.
  - erewrite bind_raise; [reflexivity|]. unfold to_check. cbn. rewrite Hidx.
    reflexivity.
  - erewrite bind_ok.
    2:{ unfold to_check. cbn. rewrite Hidx. reflexivity. }
    erewrite bind_ok by (apply (get_citers_loop_from es []); exact Hidx).
    unfold print, with_stdout. cbn. rewrite <- app_assoc. reflexivity.
Qed.

(** ** The Resolver *)

Lemma responses_map_lookup {A} (f : A -> SearchScholarQuery) (l : list A) w i x :
  l !! i = Some x ->
  fst (responses (map f l) w) !! i =
  Some (fst (scholar_response (f x) (snd (responses (map f (take i l)) w)))).
Proof.
  revert w i. induction l as [|y l IH]; intros w i Hi; [discriminate|].
  destruct i as [|i]; cbn [map take responses fst snd].
  - injection Hi as ->. destruct (scholar_response (f x) w) as [page w1].
    destruct (responses (map f l) w1). reflexivity.
  - destruct (scholar_response (f y) w) as [page w1].
    specialize (IH w1 i Hi).
    destruct (responses (map f l) w1) as [pages w2].
    destruct (responses (map f (take i l)) w1) as [pages' w2'].
    exact IH.
Qed.

Lemma init_eq titles w file r cookie_file :
  exists cj, init titles w file r cookie_file =
             Bibchecker [] (Some file) r None None titles cj w [] [] None.
Proof.
  unfold init. destruct cookie_file as [f|]; [|eauto].
  destruct (String.eqb f ""); eauto.
Qed.

(** C3. For a bibliography of N entries, [update_db] leaves N references;
    the reference at each position keeps its title, and has
    [num_citations] and [cluster_id] both copied from the top result of its
    title search, or both [None] when that search returned nothing. *)
Theorem update_db_resolves_every_entry st es :
  bibtex_db st = Some es ->
  exists es',
    bibtex_db (snd (update_db st)) = Some es' /\
    length es' = length es /\
    forall i ref, es !! i = Some ref ->
      exists ref',
        es' !! i = Some ref' /\
        title ref' = title ref /\ cited_by ref' = cited_by ref /\
        match fst (scholar_response (title_query ref)
                     (snd (responses (map title_query (take i es)) (scholar st))))
        with
        | top :: _ =>
            num_citations ref' = Some (Some (art_num_citations top)) /\
            cluster_id ref' = Some (art_cluster_id top)
        | [] =>
            num_citations ref' = Some None /\ cluster_id ref' = Some None
        end.
Proof.
  destruct st as [qa bf r db c bt cj w s out fl]. cbn. intros ->.
  rewrite update_db_eq. cbv zeta.
  exists (zip_with resolve_with (fst (responses (map title_query es) w)) es).
  split; [destruct (Nat.eqb _ 0); reflexivity|].
  split; [rewrite length_zip_with, responses_length, length_map; lia|].
  intros i ref Hi. rewrite lookup_zip_with.
  rewrite (responses_map_lookup _ _ _ _ _ Hi), Hi. cbn.
  eexists. split; [reflexivity|].
  destruct (fst (scholar_response _ _)); cbn; auto.
Qed.

Lemma to_check_cond_resolved r ref :
  well_resolved ref -> to_check_cond r ref = inr (selected r ref).
Proof.
  intros (c & Hc & Hn).
  unfold to_check_cond, getitem_cluster_id, getitem_num_citations, selected.
  rewrite Hc. destruct c as [c|]; [|reflexivity].
  destruct Hn as [n ->]. reflexivity.
Qed.

Lemma comprehension_selected r es i idxs :
  comprehension (to_check_cond r) i es = inr idxs ->
  idxs = positions (selected r) i es.
Proof.
  revert i idxs. induction es as [|ref es IH]; intros i idxs; cbn.
  - congruence.
  - destruct (to_check_cond r ref) as [|b] eqn:Hcond; [discriminate|].
    destruct (comprehension (to_check_cond r) (S i) es) as [|idxs'] eqn:Hrest;
      [discriminate|].
    apply to_check_cond_inr in Hcond as [<- _]. rewrite (IH _ _ Hrest).
    congruence.
Qed.

Lemma find_common_eq es qa bf r c bt cj w s out fl :
  find_common (Bibchecker qa bf r (Some es) c bt cj w s out fl) =
  (inr tt,
   Bibchecker qa bf r (Some es) (Some (Counter_of (citations_list es)))
     bt cj w s out fl).
Proof. reflexivity. Qed.

(** [do_check] on a fresh object, in full. *)
Lemma do_check_eq titles file r cj w :
  let es0 := map loaded_entry titles in
  let qs0 := map title_query es0 in
  let es1 := zip_with resolve_with (fst (responses qs0 w)) es0 in
  let qa1 := List.last (fst (responses qs0 w)) [] in
  let w1 := snd (responses qs0 w) in
  let out1 := map (fun i => update_db_progress (length es0) i +:+ CR)
                  (seq 0 (length es0)) ++ [LF] in
  let qs1 := flat_map (queries_of r) es1 in
  let es2 := fetch_all r es1 w1 in
  let checked := positions (selected r) 0 es1 in
  do_check (Bibchecker [] (Some file) r None None titles cj w [] [] None) =
  if Nat.eqb (length (positions has_cluster_id 0 es1)) 0
  then (inl SystemExit,
        Bibchecker qa1 (Some file) r (Some es1) None titles cj w1 qs0
          (out1 ++ [captcha_error +:+ LF]) None)
  else (inr tt,
        Bibchecker (List.last (fst (responses qs1 w1)) qa1) (Some file) r
          (Some es2) (Some (Counter_of (citations_list es2))) titles cj
          (snd (responses qs1 w1)) (qs0 ++ qs1)
          (out1 ++ map (fun j => get_citers_progress (length checked) j +:+ CR)
                       (seq 0 (length checked)) ++ [LF]) None).
Proof.
  intros. unfold do_check. erewrite bind_ok by reflexivity.
  unfold with_bibtex_db.
  cbn [bib_titles querier_articles bibfile rmax counter
       cookie_jar scholar sent stdout outfile].
  pose proof (update_db_eq (map loaded_entry titles) [] (Some file) r None titles
                cj w [] [] None) as Hupd.
  cbv zeta in Hupd. cbn [app] in Hupd. fold es0 qs0 es1 qa1 w1 out1 in Hupd.
  destruct (Nat.eqb (length (positions has_cluster_id 0 es1)) 0).
  - erewrite bind_raise by exact Hupd. reflexivity.
  - erewrite bind_ok by exact Hupd.
    pose proof (get_citers_eq es1 qa1 (Some file) r None titles cj w1 qs0 out1 None)
      as Hget.
    rewrite (comprehension_positions _ (selected r)) in Hget.
    2:{ eapply Forall_impl; [apply Forall_zip_with_resolved|].
        intros ref. apply to_check_cond_resolved. }
    cbv zeta in Hget. fold qs1 es2 checked in Hget.
    erewrite bind_ok by exact Hget. rewrite find_common_eq.
    reflexivity.
Qed.

(** C10. After [update_db], a reference whose [cluster_id] is not [None]
    has an integer [num_citations]; the condition that builds [to_check]
    evaluates to a boolean on every reference, and [get_citers] run on that
    object raises nothing. *)
Theorem resolved_count_is_integer st es :
  bibtex_db st = Some es ->
  exists es',
    bibtex_db (snd (update_db st)) = Some es' /\
    Forall (fun ref => forall c, cluster_id ref = Some (Some c) ->
                       exists n, num_citations ref = Some (Some n)) es' /\
    Forall (fun ref => exists b, to_check_cond (rmax st) ref = inr b) es' /\
    fst (get_citers (snd (update_db st))) = inr tt.
Proof.
  destruct st as [qa bf r db c bt cj w s out fl]. cbn. intros ->.
  rewrite update_db_eq. cbv zeta.
  set (es' := zip_with resolve_with (fst (responses (map title_query es) w)) es).
  pose proof (Forall_zip_with_resolved (fst (responses (map title_query es) w)) es)
    as Hres. fold es' in Hres.
  exists es'. split; [destruct (Nat.eqb _ 0); reflexivity|].
  split; [|split].
  - eapply Forall_impl; [exact Hres|]. intros ref (c0 & Hc & Hn) c1 Hc1.
    rewrite Hc1 in Hc. injection Hc as <-. exact Hn.
  - eapply Forall_impl; [exact Hres|]. intros ref Href.
    eexists. apply to_check_cond_resolved, Href.
  - destruct (Nat.eqb _ 0); cbn [snd]; rewrite get_citers_eq;
      rewrite (comprehension_positions _ (selected r));
      try reflexivity;
      (eapply Forall_impl; [exact Hres|]; intros ref;
       apply to_check_cond_resolved).
Qed.

Lemma resolved_loaded_cited_by pages titles :
  Forall (fun ref => cited_by ref = None)
         (zip_with resolve_with pages (map loaded_entry titles)).
Proof.
  revert titles. induction pages as [|page pages IH]; intros [|t titles]; cbn;
    constructor; auto. destruct page; reflexivity.
Qed.

Lemma title_query_cites_id (es : list Reference) :
  Forall (fun q => cites_id q = None) (map title_query es).
Proof. induction es; constructor; auto. Qed.

(** C4. Let [es1] be the references after the loop of [update_db] on a
    fresh object.  If every one of them has [cluster_id] [None], the script
    ends with [SystemExit] right after printing the captcha message: no
    citer query was sent, no reference has [cited_by], no counter was built,
    the report header was not printed and no output file was opened.  If
    some reference has a cluster identifier, [update_db] returns normally
    and [do_check] goes on with [get_citers] and [find_common], which run
    to the end. *)
Theorem update_db_exits_when_nothing_resolved titles w file out cookie_file r :
  let st0 := init titles w file r cookie_file in
  exists es1,
    bibtex_db (snd (update_db_loop (snd (load_bibfile st0)))) = Some es1 /\
    (Forall (fun ref => cluster_id ref = Some None) es1 ->
     exists st',
       main titles w file out cookie_file r = (inl SystemExit, st') /\
       stdout st' =
         map (fun i => update_db_progress (length titles) i +:+ CR)
             (seq 0 (length titles)) ++ [LF; captcha_error +:+ LF] /\
       ~ In (header +:+ LF) (stdout st') /\
       Forall (fun q => cites_id q = None) (sent st') /\
       bibtex_db st' = Some es1 /\
       Forall (fun ref => cited_by ref = None) es1 /\
       counter st' = None /\ outfile st' = None) /\
    (Exists (fun ref => exists c, cluster_id ref = Some (Some c)) es1 ->
     exists st2,
       update_db (snd (load_bibfile st0)) = (inr tt, st2) /\
       bibtex_db st2 = Some es1 /\
       do_check st0 = (get_citers >> find_common) st2 /\
       fst (do_check st0) = inr tt).
Proof.
  intros st0. subst st0.
  destruct (init_eq titles w file r cookie_file) as [cj Hinit].
  unfold main. rewrite Hinit. clear Hinit.
  cbn [load_bibfile bibfile bib_titles with_bibtex_db querier_articles rmax
       counter cookie_jar scholar sent stdout outfile snd].
  unfold with_bibtex_db.
  cbn [bibfile bib_titles querier_articles rmax
       counter cookie_jar scholar sent stdout outfile snd].
  rewrite update_db_loop_eq. cbn [snd bibtex_db].
  set (es0 := map loaded_entry titles).
  set (pages := fst (responses (map title_query es0) w)).
  set (es1 := zip_with resolve_with pages es0).
  exists es1. split; [reflexivity|]. split.
  - intros Hnull.
    assert (Hnone : Nat.eqb (length (positions has_cluster_id 0 es1)) 0 = true).
    { apply Nat.eqb_eq, length_zero_iff_nil, positions_nil.
      eapply Forall_impl; [exact Hnull|]. intros ref Href.
      unfold has_cluster_id. rewrite Href. reflexivity. }
    erewrite bind_raise.
    2:{ rewrite do_check_eq. cbv zeta. fold es0 pages es1. rewrite Hnone.
        reflexivity. }
    eexists. split; [reflexivity|].
    cbn [stdout sent bibtex_db counter outfile]. unfold es0.
    rewrite length_map, <- app_assoc. cbn [app].
    split; [reflexivity|]. split; [|split; [|split; [|split; [|split]]]];
      try reflexivity.
    + rewrite in_app_iff, in_map_iff. cbn [In].
      intros [(i & Hi & _)|[Hi|[Hi|[]]]]; revert Hi;
        unfold header, update_db_progress, captcha_error, LF, CR; cbn;
        discriminate.
    + apply title_query_cites_id.
    + apply resolved_loaded_cited_by.
  - intros Hsome.
    assert (Hnone : Nat.eqb (length (positions has_cluster_id 0 es1)) 0 = false).
    { apply Nat.eqb_neq. rewrite length_zero_iff_nil, positions_nil.
      intros Hall. apply Exists_exists in Hsome as (ref & Hin & c & Hc).
      rewrite Forall_forall in Hall. specialize (Hall ref Hin).
      unfold has_cluster_id in Hall. rewrite Hc in Hall. discriminate. }
    pose proof (update_db_eq es0 [] (Some file) r None titles cj w [] [] None)
      as Hupd.
    cbv zeta in Hupd. fold pages es1 in Hupd. rewrite Hnone in Hupd.
    eexists. split; [exact Hupd|]. split; [reflexivity|]. split.
    + unfold do_check. erewrite bind_ok by reflexivity.
      unfold with_bibtex_db.
      cbn [bib_titles querier_articles bibfile rmax counter
           cookie_jar scholar sent stdout outfile]. fold es0.
      erewrite bind_ok by exact Hupd. reflexivity.
    + rewrite do_check_eq. cbv zeta. fold es0 pages es1. rewrite Hnone.
      reflexivity.
Qed.

(** ** The Citer Fetcher *)

Lemma selected_true_iff r ref :
  selected r ref = true <->
  exists c n, cluster_id ref = Some (Some c) /\
              num_citations ref = Some (Some n) /\ (n < r)%Z.
Proof.
  unfold selected. split.
  - destruct (cluster_id ref) as [[c|]|]; try discriminate.
    destruct (num_citations ref) as [[n|]|]; try discriminate.
    intros H. exists c, n. rewrite Z.ltb_lt in H. auto.
  - intros (c & n & -> & -> & H). apply Z.ltb_lt, H.
Qed.

Lemma queries_of_selected r ref c n :
  cluster_id ref = Some (Some c) -> num_citations ref = Some (Some n) ->
  selected r ref = true ->
  queries_of r ref = map (page_query (Some c)) (py_range 0 n 20).
Proof.
  unfold selected, queries_of. intros -> -> ->. reflexivity.
Qed.

Lemma queries_of_unselected r ref : selected r ref = false -> queries_of r ref = [].
Proof.
  unfold selected, queries_of.
  destruct (cluster_id ref) as [[c|]|]; try reflexivity.
  destruct (num_citations ref) as [[n|]|]; try reflexivity.
  intros ->. reflexivity.
Qed.

Lemma queries_of_cites_id r ref q :
  In q (queries_of r ref) ->
  selected r ref = true /\
  exists c, cluster_id ref = Some (Some c) /\ cites_id q = Some c.
Proof.
  destruct (selected r ref) eqn:Hsel.
  - apply selected_true_iff in Hsel as Hsel'. destruct Hsel' as (c & n & Hc & Hn & _).
    rewrite (queries_of_selected r ref c n Hc Hn Hsel), in_map_iff.
    intros (x & <- & _). split; [reflexivity|]. exists c. auto.
  - rewrite (queries_of_unselected _ _ Hsel). intros [].
Qed.

Lemma fetch_all_lookup r es : forall w i ref,
  es !! i = Some ref ->
  fetch_all r es w !! i =
  Some (if selected r ref
        then setitem_cited_by
               (map citer_record
                  (concat (fst (responses (queries_of r ref)
                     (snd (responses (flat_map (queries_of r) (take i es)) w))))))
               ref
        else ref).
Proof.
  induction es as [|ref0 es IH]; intros w i ref Hi; [discriminate|].
  destruct i as [|i]; cbn [fetch_all take flat_map].
  - injection Hi as ->. cbn [responses snd].
    destruct (responses (queries_of r ref) w); reflexivity.
  - rewrite responses_app. cbn [snd].
    destruct (responses (queries_of r ref0) w) as [pages w1]. cbn [snd].
    apply (IH w1 i ref Hi).
Qed.

Lemma to_check_cond_paired r ref :
  (cluster_id ref = Some None \/
   exists c n, cluster_id ref = Some (Some c) /\ num_citations ref = Some (Some n)) ->
  to_check_cond r ref = inr (selected r ref).
Proof.
  unfold to_check_cond, getitem_cluster_id, getitem_num_citations, selected.
  intros [->|(c & n & -> & ->)]; reflexivity.
Qed.

(** [get_citers] on references that each have a [None] cluster identifier,
    or a cluster identifier with an integer count: the comprehension raises
    nothing and every round runs. *)
Lemma get_citers_returns es qa bf r c bt cj w s out fl :
  Forall (fun ref =>
            cluster_id ref = Some None \/
            exists c n, cluster_id ref = Some (Some c) /\
                        num_citations ref = Some (Some n)) es ->
  get_citers (Bibchecker qa bf r (Some es) c bt cj w s out fl) =
  (inr tt,
   Bibchecker (List.last (fst (responses (flat_map (queries_of r) es) w)) qa) bf r
     (Some (fetch_all r es w)) c bt cj
     (snd (responses (flat_map (queries_of r) es) w))
     (s ++ flat_map (queries_of r) es)
     (out ++ map (fun j => get_citers_progress
                             (length (positions (selected r) 0 es)) j +:+ CR)
                 (seq 0 (length (positions (selected r) 0 es))) ++ [LF]) fl).
Proof.
  intros Hes. rewrite get_citers_eq.
  rewrite (comprehension_positions _ (selected r)); [reflexivity|].
  eapply Forall_impl; [exact Hes|]. intros ref. apply to_check_cond_paired.
Qed.

(** C5. The references [get_citers] selects are those whose [cluster_id]
    is a string and whose [num_citations] is an integer strictly below
    [rmax].  On any loaded object, whatever the outcome, every query it
    sends asks for the citers of such a reference, and a reference outside
    that set is left as it was.  When each reference has a [None] cluster
    identifier or a cluster identifier with an integer count, as [update_db]
    leaves them, [get_citers] returns, [to_check] holds exactly the
    positions of the references in that set, and each of them has its
    [cited_by] set. *)
Theorem get_citers_selects_below_rmax st es :
  bibtex_db st = Some es ->
  (forall ref, selected (rmax st) ref = true <->
     exists c n, cluster_id ref = Some (Some c) /\
                 num_citations ref = Some (Some n) /\ (n < rmax st)%Z) /\
  (forall res st', get_citers st = (res, st') ->
     exists es' new,
       bibtex_db st' = Some es' /\ sent st' = sent st ++ new /\
       Forall (fun q => exists ref c,
                   In ref es /\ selected (rmax st) ref = true /\
                   cluster_id ref = Some (Some c) /\ cites_id q = Some c) new /\
       (forall i ref, es !! i = Some ref -> selected (rmax st) ref = false ->
                      es' !! i = Some ref)) /\
  (Forall (fun ref =>
             cluster_id ref = Some None \/
             exists c n, cluster_id ref = Some (Some c) /\
                         num_citations ref = Some (Some n)) es ->
   exists st' es',
     get_citers st = (inr tt, st') /\ bibtex_db st' = Some es' /\
     fst (to_check st) = inr (positions (selected (rmax st)) 0 es) /\
     (forall i, In i (positions (selected (rmax st)) 0 es) <->
                exists ref, es !! i = Some ref /\ selected (rmax st) ref = true) /\
     (forall i ref, es !! i = Some ref -> selected (rmax st) ref = true ->
        exists citers, es' !! i = Some (setitem_cited_by citers ref)) /\
     (forall i ref, es !! i = Some ref -> selected (rmax st) ref = false ->
        es' !! i = Some ref)).
Proof.
  destruct st as [qa bf r db c bt cj w s out fl]. cbn. intros ->.
  split; [apply selected_true_iff|]. split.
  - intros res st' Hget. rewrite get_citers_eq in Hget.
    destruct (comprehension (to_check_cond r) 0 es) as [e|idxs] eqn:Hidx.
    + injection Hget as <- <-. exists es, []. cbn. rewrite app_nil_r.
      repeat split; auto.
    + cbv zeta in Hget. injection Hget as <- <-.
      exists (fetch_all r es w), (flat_map (queries_of r) es). cbn.
      split; [reflexivity|]. split; [reflexivity|]. split.
      * apply List.Forall_forall. intros q Hq.
        apply in_flat_map in Hq as (ref & Href & Hq).
        apply queries_of_cites_id in Hq as (Hsel & c0 & Hc & Hq). eauto 8.
      * intros i ref Hi Hsel. rewrite (fetch_all_lookup _ _ _ _ _ Hi), Hsel.
        reflexivity.
  - intros Hes. rewrite (get_citers_returns es) by exact Hes.
    eexists _, _. split; [reflexivity|]. cbn [bibtex_db].
    split; [reflexivity|]. split; [|split; [|split]].
    + unfold to_check. cbn.
      rewrite (comprehension_positions _ (selected r)); [reflexivity|].
      eapply Forall_impl; [exact Hes|]. intros ref. apply to_check_cond_paired.
    + intros i. rewrite <- list_elem_of_In, elem_of_positions, Nat.sub_0_r.
      split.
      * intros (ref & Hi & Hsel & _). eauto.
      * intros (ref & Hi & Hsel). exists ref. repeat split; auto. lia.
    + intros i ref Hi Hsel. rewrite (fetch_all_lookup _ _ _ _ _ Hi), Hsel.
      eauto.
    + intros i ref Hi Hsel. rewrite (fetch_all_lookup _ _ _ _ _ Hi), Hsel.
      reflexivity.
Qed.

(** *** Paging *)

Lemma py_range_offsets n :
  py_range 0 n 20 =
  map (fun k => (20 * Z.of_nat k)%Z) (seq 0 (length (py_range 0 n 20))).
Proof.
  unfold py_range. rewrite length_map, length_seq.
  apply map_ext. intros k. lia.
Qed.

Lemma py_range_length n :
  Z.of_nat (length (py_range 0 n 20)) = range_length 0 n 20.
Proof.
  unfold py_range. rewrite length_map, length_seq. unfold range_length.
  destruct (0 <? n)%Z eqn:Hn; [|reflexivity].
  apply Z.ltb_lt in Hn. apply Z2Nat.id.
  assert (0 <= (n - 0 - 1) / 20)%Z by (apply Z.div_pos; lia). lia.
Qed.

Lemma py_range_below n : Forall (fun x => (0 <= x < n)%Z) (py_range 0 n 20).
Proof.
  apply List.Forall_forall. intros x Hx. rewrite py_range_offsets in Hx.
  apply in_map_iff in Hx as (k & <- & Hk). apply in_seq in Hk.
  pose proof (py_range_length n) as Hlen. unfold range_length in Hlen.
  destruct (0 <? n)%Z eqn:Hn; [|lia].
  assert (Z.of_nat k <= (n - 0 - 1) / 20)%Z as Hle by lia.
  pose proof (Z.mul_div_le (n - 0 - 1) 20 ltac:(lia)). lia.
Qed.

Lemma py_range_reaches n : (n <= 20 * Z.of_nat (length (py_range 0 n 20)))%Z.
Proof.
  rewrite py_range_length. unfold range_length.
  destruct (0 <? n)%Z eqn:Hn; [|apply Z.ltb_ge in Hn; lia].
  pose proof (Z.mod_pos_bound (n - 0 - 1) 20 ltac:(lia)).
  pose proof (Z.div_mod (n - 0 - 1) 20 ltac:(lia)). lia.
Qed.

Lemma insert_middle {A} (l1 l2 : list A) (x y : A) :
  <[length l1 := y]> (l1 ++ x :: l2) = l1 ++ y :: l2.
Proof. rewrite <- (Nat.add_0_r (length l1)), insert_app_r. reflexivity. Qed.

(** C6. For every reference [get_citers] selects, with cluster identifier
    [c] and [n] citations, the queries [get_citers] sends are: those of the
    references before it, then one query per offset 0, 20, 40, ... below
    [n], in that order, each asking for the citers of [c] from that offset,
    then those of the references after it.  The offsets stop as soon as the
    next one would reach [n]; for [n = 45] they are 0, 20 and 40.  The
    reference then holds in [cited_by] the citers of the pages returned for
    its queries, concatenated in the order the pages came back. *)
Theorem get_citers_pages_every_20 st es i ref c n :
  bibtex_db st = Some es ->
  Forall (fun ref =>
            cluster_id ref = Some None \/
            exists c n, cluster_id ref = Some (Some c) /\
                        num_citations ref = Some (Some n)) es ->
  es !! i = Some ref ->
  cluster_id ref = Some (Some c) ->
  num_citations ref = Some (Some n) ->
  (n < rmax st)%Z ->
  let offsets := py_range 0 n 20 in
  let queries :=
    map (fun x => {| words := None; cites_id := Some c; start := Some x |})
        offsets in
  let earlier := flat_map (queries_of (rmax st)) (take i es) in
  let later := flat_map (queries_of (rmax st)) (drop (S i) es) in
  let pages := fst (responses queries (snd (responses earlier (scholar st)))) in
  exists st' es',
    get_citers st = (inr tt, st') /\ bibtex_db st' = Some es' /\
    sent st' = sent st ++ earlier ++ queries ++ later /\
    length pages = length offsets /\
    es' !! i = Some (setitem_cited_by (map citer_record (concat pages)) ref) /\
    offsets = map (fun k => (20 * Z.of_nat k)%Z) (seq 0 (length offsets)) /\
    Forall (fun x => (0 <= x < n)%Z) offsets /\
    (n <= 20 * Z.of_nat (length offsets))%Z /\
    (n = 45%Z -> offsets = [0; 20; 40]%Z).
Proof.
  destruct st as [qa bf r db c0 bt cj w s out fl]. intros Hdb Hes Hi Hc Hn Hlt.
  cbn in Hdb. subst db. cbn [sent scholar rmax bibtex_db] in *.
  assert (Hsel : selected r ref = true)
    by (apply selected_true_iff; eauto).
  pose proof (queries_of_selected r ref c n Hc Hn Hsel) as Hqs.
  rewrite (get_citers_returns es) by exact Hes. cbv zeta.
  change (map (fun x => {| words := None; cites_id := Some c; start := Some x |})
              (py_range 0 n 20))
    with (map (page_query (Some c)) (py_range 0 n 20)).
  eexists _, _. split; [reflexivity|]. cbn [sent bibtex_db].
  split; [reflexivity|]. split.
  { rewrite <- (take_drop_middle es i ref Hi) at 1.
    rewrite flat_map_app. cbn [flat_map]. rewrite Hqs. reflexivity. }
  split; [rewrite responses_length, length_map; reflexivity|].
  split; [rewrite (fetch_all_lookup _ _ _ _ _ Hi), Hsel, Hqs; reflexivity|].
  split; [apply py_range_offsets|].
  split; [apply py_range_below|].
  split; [apply py_range_reaches|].
  intros ->. reflexivity.
Qed.


(** ** The Aggregator *)

Lemma counter_get_count_element k c k' :
  counter_get (count_element k c) k' =
  (counter_get c k' + if decide (k' = k) then 1 else 0)%Z.
Proof.
  induction c as [|[k0 n] c IH]; cbn.
  - destruct (decide (k' = k)); reflexivity.
  - destruct (decide (k = k0)) as [->|Hne]; cbn.
    + destruct (decide (k' = k0)); lia.
    + rewrite IH. destruct (decide (k' = k0)) as [->|]; [|reflexivity].
      destruct (decide (k0 = k)); [congruence|lia].
Qed.

Lemma counter_get_fold l : forall c k,
  counter_get (fold_left (fun c k => count_element k c) l c) k =
  (counter_get c k + occurrences l k)%Z.
Proof.
  unfold occurrences.
  induction l as [|k0 l IH]; intros c k; cbn [fold_left count_occ].
  - cbn. lia.
  - rewrite IH, counter_get_count_element. unfold citer_eq_dec.
    destruct (decide (k = k0)) as [->|Hne].
    + destruct (decide (k0 = k0)); [|congruence]. lia.
    + destruct (decide (k0 = k)); [congruence|]. lia.
Qed.

Lemma counter_get_Counter_of l k : counter_get (Counter_of l) k = occurrences l k.
Proof. unfold Counter_of. rewrite counter_get_fold. reflexivity. Qed.

Lemma citations_list_concat es : citations_list es = concat (omap cited_by es).
Proof.
  unfold citations_list.
  assert (Hgen : forall acc, fold_left extend_cited_by (List.filter has_cited_by es) acc
                             = acc ++ concat (omap cited_by es)).
  { induction es as [|ref es IH]; intros acc; cbn.
    - rewrite app_nil_r. reflexivity.
    - unfold has_cited_by. destruct (cited_by ref) as [l|] eqn:Hl; cbn.
      + rewrite IH. unfold extend_cited_by. rewrite Hl. cbn.
        rewrite <- app_assoc. reflexivity.
      + apply IH. }
  apply Hgen.
Qed.

Lemma citations_Permutation (es es' : list Reference) :
  Permutation es es' ->
  Permutation (concat (omap cited_by es)) (concat (omap cited_by es')).
Proof.
  induction 1 as [|ref es es' _ IH|ref1 ref2 es|es1 es2 es3 _ IH1 _ IH2]; cbn.
  - constructor.
  - destruct (cited_by ref); cbn; [apply Permutation_app_head|]; exact IH.
  - destruct (cited_by ref1), (cited_by ref2); cbn; try reflexivity.
    rewrite !app_assoc. apply Permutation_app_tail, Permutation_app_comm.
  - etransitivity; eassumption.
Qed.

Lemma occurrences_Permutation l l' k :
  Permutation l l' -> occurrences l k = occurrences l' k.
Proof.
  intros H. unfold occurrences. f_equal.
  apply (proj1 (Permutation_count_occ citer_eq_dec l l') H).
Qed.

(** C8. [find_common] sets the counter so that the count of every citer
    record is the number of times it occurs in the concatenation of the
    [cited_by] lists; with the references in any other order the count of
    every citer record is the same. *)
Theorem find_common_counts_occurrences st es es' :
  bibtex_db st = Some es ->
  Permutation es es' ->
  exists c c',
    find_common st = (inr tt, with_counter (Some c) st) /\
    (forall k, counter_get c k = occurrences (concat (omap cited_by es)) k) /\
    find_common (with_bibtex_db (Some es') st)
      = (inr tt, with_counter (Some c') (with_bibtex_db (Some es') st)) /\
    (forall k, counter_get c' k = counter_get c k).
Proof.
  destruct st as [qa bf r db c0 bt cj w s out fl]. intros Hdb Hperm.
  cbn in Hdb. subst db.
  exists (Counter_of (citations_list es)), (Counter_of (citations_list es')).
  split; [reflexivity|]. split; [|split; [reflexivity|]].
  - intros k. rewrite counter_get_Counter_of, citations_list_concat. reflexivity.
  - intros k. rewrite !counter_get_Counter_of, !citations_list_concat.
    symmetry. apply occurrences_Permutation, citations_Permutation, Hperm.
Qed.

(** ** The whole of [do_check] *)

Lemma fetch_all_length r es : forall w, length (fetch_all r es w) = length es.
Proof.
  induction es as [|ref es IH]; intros w; cbn; [reflexivity|].
  destruct (responses (queries_of r ref) w). cbn. rewrite IH. reflexivity.
Qed.

Lemma fetch_all_elem r es : forall w ref',
  In ref' (fetch_all r es w) ->
  exists ref, In ref es /\
    cluster_id ref' = cluster_id ref /\ num_citations ref' = num_citations ref /\
    if selected r ref then cited_by ref' <> None else cited_by ref' = cited_by ref.
Proof.
  induction es as [|ref es IH]; intros w ref'; cbn; [tauto|].
  destruct (responses (queries_of r ref) w) as [pages w1]. cbn.
  intros [<-|Hin].
  - exists ref. split; [auto|].
    destruct (selected r ref) eqn:Hsel; cbn; rewrite ?Hsel; auto.
  - apply IH in Hin as (ref0 & Hin & H). eauto.
Qed.

Lemma selected_ext r ref ref' :
  cluster_id ref' = cluster_id ref -> num_citations ref' = num_citations ref ->
  selected r ref' = selected r ref.
Proof. unfold selected. intros -> ->. reflexivity. Qed.

Lemma omap_filter_selected r (es : list Reference) :
  (forall ref, In ref es -> selected r ref = false -> cited_by ref = None) ->
  omap cited_by (List.filter (selected r) es) = omap cited_by es.
Proof.
  induction es as [|ref es IH]; intros H; cbn; [reflexivity|].
  destruct (selected r ref) eqn:Hsel; cbn.
  - rewrite IH; [reflexivity|]. intros; apply H; cbn; auto.
  - rewrite (H ref) by (cbn; auto). apply IH. intros; apply H; cbn; auto.
Qed.

(** C9. When [do_check] has run to the end on a fresh object, a reference
    has the key [cited_by] exactly when its [cluster_id] is a string and its
    [num_citations] an integer strictly below [rmax]; the counter counts
    the citers of those references only. *)
Theorem cited_by_iff_selected titles w file cookie_file r st' :
  do_check (init titles w file r cookie_file) = (inr tt, st') ->
  exists es c,
    bibtex_db st' = Some es /\ counter st' = Some c /\ rmax st' = r /\
    length es = length titles /\
    (forall ref, In ref es ->
       (cited_by ref <> None <->
        exists cid n, cluster_id ref = Some (Some cid) /\
                      num_citations ref = Some (Some n) /\ (n < r)%Z)) /\
    (forall k, counter_get c k =
               occurrences (concat (omap cited_by (List.filter (selected r) es))) k).
Proof.
  destruct (init_eq titles w file r cookie_file) as [cj ->].
  rewrite do_check_eq. cbv zeta.
  set (es0 := map loaded_entry titles).
  set (qs0 := map title_query es0).
  set (es1 := zip_with resolve_with (fst (responses qs0 w)) es0).
  set (w1 := snd (responses qs0 w)).
  destruct (Nat.eqb _ 0); [discriminate|]. intros [= <-]. cbn.
  assert (Hsel : forall ref, In ref (fetch_all r es1 w1) ->
            if selected r ref then cited_by ref <> None else cited_by ref = None).
  { intros ref' Hin. apply fetch_all_elem in Hin as (ref & Hin & Hc & Hn & Hcb).
    rewrite (selected_ext r ref ref' Hc Hn).
    destruct (selected r ref); [exact Hcb|]. rewrite Hcb.
    pose proof (resolved_loaded_cited_by (fst (responses qs0 w)) titles) as Hnone.
    rewrite List.Forall_forall in Hnone. apply Hnone, Hin. }
  eexists _, _. split; [reflexivity|]. split; [reflexivity|].
  split; [reflexivity|]. split; [|split].
  - rewrite fetch_all_length. unfold es1, qs0, es0.
    rewrite length_zip_with, responses_length, !length_map. lia.
  - intros ref Hin. rewrite <- selected_true_iff. specialize (Hsel ref Hin).
    destruct (selected r ref); split; auto; try discriminate; congruence.
  - intros k. rewrite counter_get_Counter_of, citations_list_concat.
    rewrite omap_filter_selected; [reflexivity|].
    intros ref Hin Hfalse. specialize (Hsel ref Hin). rewrite Hfalse in Hsel.
    exact Hsel.
Qed.

(** ** The Reporter *)

Lemma String_length_append s1 s2 :
  String.length (s1 +:+ s2) = String.length s1 + String.length s2.
Proof. induction s1 as [|a s1 IH]; simpl; [reflexivity|]. f_equal. exact IH. Qed.

Lemma String_length_spaces n : String.length (spaces n) = n.
Proof. induction n as [|n IH]; simpl; [reflexivity|]. f_equal. exact IH. Qed.

Lemma print_rows_eq (l : list (CiterRecord * Z)) : forall qa bf r db c bt cj w s out fl,
  for_each l
    (fun '(key, ct) =>
       if (1 <? ct)%Z then print (format_row ct (snd key)) LF else ret tt)
    (Bibchecker qa bf r db c bt cj w s out fl)
  = (inr tt,
     Bibchecker qa bf r db c bt cj w s
       (out ++ map (fun kc => format_row (snd kc) (snd (fst kc)) +:+ LF)
                   (List.filter (fun kc => (1 <? snd kc)%Z) l)) fl).
Proof.
  induction l as [|[key ct] l IH]; intros; cbn [for_each List.filter map snd fst].
  - rewrite app_nil_r. reflexivity.
  - destruct (1 <? ct)%Z.
    + erewrite bind_ok by reflexivity. unfold with_stdout.
      cbn [querier_articles bibfile rmax bibtex_db counter bib_titles
           cookie_jar scholar sent stdout outfile].
      rewrite IH, <- app_assoc. reflexivity.
    + erewrite bind_ok by reflexivity. apply IH.
Qed.

Lemma count_element_keys k c :
  map fst (count_element k c) =
  map fst c ++ (if decide (k ∈ map fst c) then [] else [k]).
Proof.
  induction c as [|[k0 n] c IH]; cbn; [reflexivity|].
  destruct (decide (k = k0)) as [->|Hne]; cbn.
  - destruct (decide (k0 ∈ k0 :: map fst c)) as [|Hn].
    + rewrite app_nil_r. reflexivity.
    + exfalso. apply Hn. left.
  - rewrite IH. f_equal.
    destruct (decide (k ∈ map fst c)), (decide (k ∈ k0 :: map fst c)) as [Hin|Hn];
      try reflexivity.
    + exfalso. apply Hn. right. assumption.
    + apply elem_of_cons in Hin as [|]; congruence.
Qed.

Lemma Counter_of_NoDup l : NoDup (map fst (Counter_of l)).
Proof.
  unfold Counter_of.
  assert (Hgen : forall c, NoDup (map fst c) ->
            NoDup (map fst (fold_left (fun c k => count_element k c) l c))).
  { induction l as [|k l IH]; intros c Hc; cbn; [exact Hc|].
    apply IH. rewrite count_element_keys.
    destruct (decide (k ∈ map fst c)); [rewrite app_nil_r; exact Hc|].
    apply NoDup_app. split; [exact Hc|]. split; [|apply NoDup_singleton].
    intros x Hx Hx'. apply list_elem_of_singleton in Hx'. congruence. }
  apply Hgen. constructor.
Qed.

Lemma counter_get_absent (c : Counter) k : k ∉ map fst c -> counter_get c k = 0%Z.
Proof.
  induction c as [|[k0 n] c IH]; cbn; [reflexivity|].
  intros Hk. destruct (decide (k = k0)) as [->|].
  - exfalso. apply Hk. left.
  - apply IH. intros H. apply Hk. right. exact H.
Qed.

Lemma counter_get_item (c : Counter) k n :
  NoDup (map fst c) -> In (k, n) c -> counter_get c k = n.
Proof.
  induction c as [|[k0 n0] c IH]; cbn; [tauto|].
  intros Hnd [[= -> ->]|Hin].
  - destruct (decide (k = k)); congruence.
  - apply NoDup_cons in Hnd as [Hk0 Hnd].
    destruct (decide (k = k0)) as [->|]; [|auto].
    exfalso. apply Hk0. apply list_elem_of_In, in_map_iff. exists (k0, n). auto.
Qed.

Lemma shown_once (c : Counter) k :
  NoDup (map fst c) ->
  length (List.filter (fun kc => bool_decide (fst kc = k))
            (List.filter (fun kc => (1 <? snd kc)%Z) c))
  = if (1 <? counter_get c k)%Z then 1 else 0.
Proof.
  induction c as [|[k0 n] c IH]; cbn [List.filter map fst snd counter_get];
    [reflexivity|].
  intros Hnd. apply NoDup_cons in Hnd as [Hk0 Hnd]. specialize (IH Hnd).
  destruct (decide (k = k0)) as [->|Hne].
  - rewrite (counter_get_absent c k0 Hk0) in IH. cbn in IH.
    destruct (1 <? n)%Z; cbn [List.filter fst]; [|exact IH].
    rewrite bool_decide_eq_true_2 by reflexivity. cbn [length]. rewrite IH.
    reflexivity.
  - destruct (1 <? n)%Z; cbn [List.filter fst]; [|exact IH].
    rewrite bool_decide_eq_false_2 by congruence. exact IH.
Qed.

(** C1. After [find_common], [print_results] prints the header line
    [Citations shared   Title] and then one line per entry of the counter
    whose count exceeds 1, in the order of the counter.  The count on a
    line is the number of occurrences of the record among the citers; a
    record occurring more than once has exactly one line, a record
    occurring once or not at all has none.  A line is the count as text,
    padded with spaces on the right to 19 characters, then the title. *)
Theorem print_results_rows st es :
  bibtex_db st = Some es ->
  exists c st1 st2,
    find_common st = (inr tt, st1) /\ counter st1 = Some c /\
    print_results st1 = (inr tt, st2) /\
    let shown := List.filter (fun kc => (1 <? snd kc)%Z) (items c) in
    let citers := concat (omap cited_by es) in
    stdout st2 =
      stdout st ++ (header +:+ LF)
        :: map (fun kc => format_row (snd kc) (snd (fst kc)) +:+ LF) shown /\
    (forall kc, In kc shown -> snd kc = occurrences citers (fst kc)) /\
    (forall k, length (List.filter (fun kc => bool_decide (fst kc = k)) shown)
               = if (1 <? occurrences citers k)%Z then 1 else 0) /\
    (forall ct t, exists pad,
        format_row ct t = (str ct +:+ spaces pad) +:+ t /\
        String.length (str ct +:+ spaces pad) = Nat.max 19 (String.length (str ct))).
Proof.
  destruct st as [qa bf r db c0 bt cj w s out fl]. intros Hdb.
  cbn in Hdb. subst db. rewrite find_common_eq.
  set (c := Counter_of (citations_list es)).
  eexists c, _, _. split; [reflexivity|]. split; [reflexivity|].
  unfold print_results. erewrite bind_ok by reflexivity.
  erewrite bind_ok by reflexivity. unfold with_stdout.
  cbn [querier_articles bibfile rmax bibtex_db counter bib_titles
       cookie_jar scholar sent stdout outfile].
  rewrite print_rows_eq. split; [reflexivity|]. cbv zeta.
  cbn [querier_articles bibfile rmax bibtex_db counter bib_titles
       cookie_jar scholar sent stdout outfile].
  pose proof (Counter_of_NoDup (citations_list es)) as Hnd. fold c in Hnd.
  assert (Hget : forall k, counter_get c k = occurrences (concat (omap cited_by es)) k).
  { intros k. unfold c. rewrite counter_get_Counter_of, citations_list_concat.
    reflexivity. }
  split; [rewrite <- app_assoc; reflexivity|]. split; [|split].
  - intros [k n] Hin. apply filter_In in Hin as [Hin _]. cbn.
    rewrite <- Hget. symmetry. apply counter_get_item; assumption.
  - intros k. rewrite <- Hget. apply shown_once, Hnd.
  - intros ct t. exists (19 - String.length (str ct))%nat. split; [reflexivity|].
    rewrite String_length_append, String_length_spaces. lia.
Qed.

(** [save_results] opens the file and writes nothing to it: the first entry
    that should be written makes [write] raise. *)
Lemma save_results_loop_eq (l : list (CiterRecord * Z)) (st : bibchecker) :
  for_each l
    (fun '(key, ct) =>
       if (1 <? ct)%Z then file_write [PyInt ct; PyStr (snd key)] else ret tt) st
  = (if existsb (fun kc => (1 <? snd kc)%Z) l then inl TypeError else inr tt, st).
Proof.
  induction l as [|[key ct] l IH]; cbn [for_each existsb snd];
    [reflexivity|].
  destruct (1 <? ct)%Z; cbn [orb].
  - erewrite bind_raise; [reflexivity|]. unfold file_write.
    destruct (outfile st) as [[]|]; reflexivity.
  - erewrite bind_ok by reflexivity. exact IH.
Qed.

Lemma save_results_writes_nothing path st c :
  counter st = Some c ->
  save_results path st =
  (if existsb (fun kc => (1 <? snd kc)%Z) (most_common c)
   then inl TypeError else inr tt,
   with_outfile (Some (path, [])) st).
Proof.
  intros Hc. unfold save_results.
  erewrite bind_ok by (unfold assert_counter; rewrite Hc; reflexivity).
  erewrite bind_ok by reflexivity.
  apply save_results_loop_eq.
Qed.

(** ** Guards, and calls out of order *)

(** X1. Methods called out of order stop at their assertion and leave
    the object as it was: [update_db], [get_citers] and [find_common]
    raise [AssertionError] while no bibliography is loaded, and
    [print_results] and [save_results] raise it while there is no counter,
    without printing or opening the file. *)
Theorem methods_out_of_order (st : bibchecker) path :
  (bibtex_db st = None ->
   update_db st = (inl AssertionError, st) /\
   get_citers st = (inl AssertionError, st) /\
   find_common st = (inl AssertionError, st)) /\
  (counter st = None ->
   print_results st = (inl AssertionError, st) /\
   save_results path st = (inl AssertionError, st)).
Proof.
  destruct st as [qa bf r db c bt cj w s out fl]. split.
  - intros Hdb. cbn in Hdb. subst db. repeat split.
  - intros Hc. cbn in Hc. subst c. split; reflexivity.
Qed.

Lemma get_citers_raises st es e :
  bibtex_db st = Some es ->
  comprehension (to_check_cond (rmax st)) 0 es = inl e ->
  get_citers st = (inl e, st).
Proof.
  destruct st as [qa bf r db c bt cj w s out fl]. cbn. intros -> Hidx.
  rewrite get_citers_eq, Hidx. reflexivity.
Qed.

(** X2. [get_citers] run straight after [load_bibfile], without
    [update_db]: on a bibliography with at least one entry the lookup of
    [cluster_id] raises [KeyError] before anything is sent or printed; on an
    empty one it returns, having printed only the line break. *)
Theorem get_citers_before_update_db (st : bibchecker) file :
  bibfile st = Some file ->
  (load_bibfile >> get_citers) st =
  match bib_titles st with
  | [] => (inr tt, with_stdout (stdout st ++ [LF]) (with_bibtex_db (Some []) st))
  | _ :: _ =>
      (inl KeyError, with_bibtex_db (Some (map loaded_entry (bib_titles st))) st)
  end.
Proof.
  destruct st as [qa bf r db c bt cj w s out fl]. intros Hbf. cbn in Hbf.
  subst bf. erewrite bind_ok by reflexivity. unfold with_bibtex_db, with_stdout.
  cbn [querier_articles bibfile rmax bibtex_db counter bib_titles cookie_jar
       scholar sent stdout outfile].
  rewrite get_citers_eq. destruct bt as [|t bt]; cbn; [|reflexivity].
  rewrite app_nil_r. reflexivity.
Qed.

Lemma comprehension_TypeError r es : forall i,
  Forall (fun ref => cluster_id ref <> None /\ num_citations ref <> None) es ->
  Exists (fun ref => (exists c, cluster_id ref = Some (Some c)) /\
                     num_citations ref = Some None) es ->
  comprehension (to_check_cond r) i es = inl TypeError.
Proof.
  induction es as [|ref es IH]; intros i Hkeys Hbad; [inversion Hbad|].
  apply Forall_cons in Hkeys as [[Hc Hn] Hkeys]. cbn [comprehension].
  destruct (to_check_cond r ref) as [e|b] eqn:Hcond.
  - f_equal. revert Hcond.
    unfold to_check_cond, getitem_cluster_id, getitem_num_citations.
    destruct (cluster_id ref) as [[c|]|]; [|discriminate|congruence].
    destruct (num_citations ref) as [[n|]|]; [discriminate| |congruence].
    congruence.
  - apply Exists_cons in Hbad as [((c & Ec) & En)|Hbad].
    + revert Hcond.
      unfold to_check_cond, getitem_cluster_id, getitem_num_citations.
      rewrite Ec, En. discriminate.
    + rewrite (IH (S i) Hkeys Hbad). reflexivity.
Qed.

(** X3. When every reference has both keys and one of them has a cluster
    identifier together with a [None] count, [get_citers] raises
    [TypeError] at the comparison with [rmax], before any progress line,
    query or [cited_by]: the object is as it was. *)
Theorem get_citers_None_count (st : bibchecker) es :
  bibtex_db st = Some es ->
  Forall (fun ref => cluster_id ref <> None /\ num_citations ref <> None) es ->
  Exists (fun ref => (exists c, cluster_id ref = Some (Some c)) /\
                     num_citations ref = Some None) es ->
  get_citers st = (inl TypeError, st).
Proof.
  intros Hdb Hkeys Hbad. apply (get_citers_raises st es _ Hdb).
  apply comprehension_TypeError; assumption.
Qed.

Lemma fetch_all_unselected r es : forall w,
  Forall (fun ref => selected r ref = false) es -> fetch_all r es w = es.
Proof.
  induction es as [|ref es IH]; intros w Hsel; [reflexivity|].
  apply Forall_cons in Hsel as [Href Hsel]. cbn [fetch_all].
  rewrite (queries_of_unselected _ _ Href), Href. cbn. rewrite IH by assumption.
  reflexivity.
Qed.

Lemma flat_map_queries_unselected r es :
  Forall (fun ref => selected r ref = false) es -> flat_map (queries_of r) es = [].
Proof.
  induction 1 as [|ref es Href _ IH]; cbn; [reflexivity|].
  rewrite (queries_of_unselected _ _ Href), IH. reflexivity.
Qed.

(** X4. When no reference qualifies, each having a [None] cluster
    identifier or an integer count of at least [rmax], [get_citers] sends
    nothing and changes no reference; it prints the closing line break
    only. *)
Theorem get_citers_nothing_selected (st : bibchecker) es :
  bibtex_db st = Some es ->
  Forall (fun ref =>
            cluster_id ref = Some None /\ num_citations ref <> None \/
            exists c n, cluster_id ref = Some (Some c) /\
                        num_citations ref = Some (Some n) /\
                        (rmax st <= n)%Z) es ->
  get_citers st = (inr tt, with_stdout (stdout st ++ [LF]) st).
Proof.
  destruct st as [qa bf r db c0 bt cj w s out fl]. cbn. intros -> Hes.
  assert (Hres : Forall well_resolved es).
  { eapply Forall_impl; [exact Hes|].
    intros ref [[Hc Hn]|(c & n & Hc & Hn & _)].
    - exists None. auto.
    - exists (Some c). eauto. }
  assert (Hsel : Forall (fun ref => selected r ref = false) es).
  { eapply Forall_impl; [exact Hes|].
    intros ref [[Hc Hn]|(c & n & Hc & Hn & Hle)]; unfold selected; rewrite Hc.
    - reflexivity.
    - rewrite Hn. apply Z.ltb_ge, Hle. }
  rewrite get_citers_eq.
  rewrite (comprehension_positions _ (selected r)).
  2:{ eapply Forall_impl; [exact Hres|]. intros ref.
      apply to_check_cond_resolved. }
  cbv zeta. rewrite (proj2 (positions_nil (selected r) es 0) Hsel).
  rewrite flat_map_queries_unselected, fetch_all_unselected by assumption.
  cbn. rewrite app_nil_r. reflexivity.
Qed.

(** X5. An empty bibliography: the script sends no query and ends with
    [SystemExit] after the line break and the captcha message, in either
    mode; no file is opened. *)
Theorem empty_bibliography_exits w file out cookie_file r :
  exists st',
    main [] w file out cookie_file r = (inl SystemExit, st') /\
    stdout st' = [LF; captcha_error +:+ LF] /\
    sent st' = [] /\ scholar st' = w /\
    bibtex_db st' = Some [] /\ counter st' = None /\ outfile st' = None.
Proof.
  destruct (init_eq [] w file r cookie_file) as [cj Hinit].
  unfold main. rewrite Hinit.
  erewrite bind_raise by (rewrite do_check_eq; reflexivity).
  eexists. split; [reflexivity|]. repeat split.
Qed.

(** ** The two modes of the script *)

Lemma print_results_eq (c : Counter) qa bf r db bt cj w s out fl :
  print_results (Bibchecker qa bf r db (Some c) bt cj w s out fl) =
  (inr tt,
   Bibchecker qa bf r db (Some c) bt cj w s
     (out ++ (header +:+ LF)
        :: map (fun kc => format_row (snd kc) (snd (fst kc)) +:+ LF)
               (List.filter (fun kc => (1 <? snd kc)%Z) (items c))) fl).
Proof.
  unfold print_results. erewrite bind_ok by reflexivity.
  erewrite bind_ok by reflexivity. unfold with_stdout.
  cbn [querier_articles bibfile rmax bibtex_db counter bib_titles
       cookie_jar scholar sent stdout outfile].
  rewrite print_rows_eq, <- app_assoc. reflexivity.
Qed.

Lemma positions_length {A} (p : A -> bool) l i :
  length (positions p i l) = length (List.filter p l).
Proof.
  revert i. induction l as [|x l IH]; intros i; cbn; [reflexivity|].
  destruct (p x); cbn; rewrite IH; reflexivity.
Qed.

Lemma fetch_all_selected_length r es : forall w,
  length (List.filter (selected r) (fetch_all r es w)) =
  length (List.filter (selected r) es).
Proof.
  induction es as [|ref es IH]; intros w; cbn [fetch_all List.filter];
    [reflexivity|].
  destruct (responses (queries_of r ref) w) as [pages w1].
  destruct (selected r ref) eqn:Hsel; cbn [List.filter].
  - change (selected r (setitem_cited_by (map citer_record (concat pages)) ref))
      with (selected r ref).
    rewrite Hsel. cbn [length]. rewrite IH. reflexivity.
  - rewrite Hsel. apply IH.
Qed.





(** [main], in full, on a fresh object. *)
Lemma main_eq titles w file out cookie_file r :
  exists cj,
    main titles w file out cookie_file r =
    match do_check (Bibchecker [] (Some file) r None None titles cj w [] [] None) with
    | (inl e, st) => (inl e, st)
    | (inr _, st) =>
        match out with
        | Some path => save_results path st
        | None => print_results st
        end
    end.
Proof.
  destruct (init_eq titles w file r cookie_file) as [cj Hinit]. exists cj.
  unfold main. rewrite Hinit. unfold bind at 1.
  destruct (do_check _) as [[e|[]] st]; [reflexivity|].
  destruct out; reflexivity.
Qed.

(** [update_db], then [get_citers], then [find_common], on a loaded object. *)
Lemma resolve_fetch_count_eq es qa bf r c bt cj w s out fl :
  let qs0 := map title_query es in
  let es1 := zip_with resolve_with (fst (responses qs0 w)) es in
  let qa1 := List.last (fst (responses qs0 w)) qa in
  let w1 := snd (responses qs0 w) in
  let out1 := out ++ map (fun i => update_db_progress (length es) i +:+ CR)
                         (seq 0 (length es)) ++ [LF] in
  let qs1 := flat_map (queries_of r) es1 in
  let es2 := fetch_all r es1 w1 in
  let checked := positions (selected r) 0 es1 in
  (update_db >> get_citers >> find_common)
    (Bibchecker qa bf r (Some es) c bt cj w s out fl) =
  if Nat.eqb (length (positions has_cluster_id 0 es1)) 0
  then (inl SystemExit,
        Bibchecker qa1 bf r (Some es1) c bt cj w1 (s ++ qs0)
          (out1 ++ [captcha_error +:+ LF]) fl)
  else (inr tt,
        Bibchecker (List.last (fst (responses qs1 w1)) qa1) bf r
          (Some es2) (Some (Counter_of (citations_list es2))) bt cj
          (snd (responses qs1 w1)) ((s ++ qs0) ++ qs1)
          (out1 ++ map (fun j => get_citers_progress (length checked) j +:+ CR)
                       (seq 0 (length checked)) ++ [LF]) fl).
Proof.
  intros. pose proof (update_db_eq es qa bf r c bt cj w s out fl) as Hupd.
  cbv zeta in Hupd. fold qs0 es1 qa1 w1 out1 in Hupd.
  destruct (Nat.eqb (length (positions has_cluster_id 0 es1)) 0).
  - erewrite bind_raise by exact Hupd. reflexivity.
  - erewrite bind_ok by exact Hupd.
    pose proof (get_citers_eq es1 qa1 bf r c bt cj w1 (s ++ qs0) out1 fl) as Hget.
    rewrite (comprehension_positions _ (selected r)) in Hget.
    2:{ eapply Forall_impl; [apply Forall_zip_with_resolved|].
        intros ref. apply to_check_cond_resolved. }
    cbv zeta in Hget. fold qs1 es2 checked in Hget.
    erewrite bind_ok by exact Hget. rewrite find_common_eq. reflexivity.
Qed.

Lemma run_then (k : M unit) (st : bibchecker) :
  (update_db >> get_citers >> find_common >> k) st =
  match (update_db >> get_citers >> find_common) st with
  | (inl e, st') => (inl e, st')
  | (inr _, st') => k st'
  end.
Proof.
  unfold bind. destruct (update_db st) as [[e|[]] st1]; [reflexivity|].
  destruct (get_citers st1) as [[e|[]] st2]; [reflexivity|].
  destruct (find_common st2) as [[e|[]] st3]; reflexivity.
Qed.

(** X7. Once the bibliography is loaded, with entries that carry a title
    and none of the keys the script adds, the rest of a print-mode run,
    [update_db], [get_citers], [find_common] and [print_results], ends
    normally or with [SystemExit] and with no other exception, whatever
    pages the service returns; the output file is not touched. *)
Theorem print_run_never_crashes (st : bibchecker) titles :
  bibtex_db st = Some (map loaded_entry titles) ->
  let run := (update_db >> get_citers >> find_common >> print_results) st in
  (fst run = inl SystemExit \/ fst run = inr tt) /\
  outfile (snd run) = outfile st.
Proof.
  destruct st as [qa bf r db c bt cj w s out fl]. intros Hdb. cbn in Hdb.
  subst db. intros run. subst run.
  rewrite run_then, resolve_fetch_count_eq. cbv zeta.
  destruct (Nat.eqb _ 0); [cbn; auto|]. cbv beta iota.
  rewrite print_results_eq. cbn. auto.
Qed.

(** X8. What print mode shows when it ends normally: one progress text per
    bibliography entry, a line break, one progress text per reference that
    qualified for the fetch, a line break, the header, and the rows. *)
Theorem print_mode_output titles w file cookie_file r st' :
  main titles w file None cookie_file r = (inr tt, st') ->
  exists es c,
    bibtex_db st' = Some es /\ counter st' = Some c /\
    let n := length titles in
    let m := length (List.filter (selected r) es) in
    stdout st' =
      map (fun i => update_db_progress n i +:+ CR) (seq 0 n) ++
      LF :: map (fun j => get_citers_progress m j +:+ CR) (seq 0 m) ++
      LF :: (header +:+ LF)
         :: map (fun kc => format_row (snd kc) (snd (fst kc)) +:+ LF)
                (List.filter (fun kc => (1 <? snd kc)%Z) (items c)).
Proof.
  destruct (main_eq titles w file None cookie_file r) as [cj ->].
  rewrite do_check_eq. cbv zeta.
  destruct (Nat.eqb _ 0); [discriminate|].
  rewrite print_results_eq. intros [= <-].
  eexists _, _. split; [reflexivity|]. split; [reflexivity|].
  cbn [stdout]. rewrite fetch_all_selected_length, positions_length, length_map.
  rewrite <- !app_assoc. reflexivity.
Qed.


(** ** The queries of a run *)

Lemma queries_of_shape r ref q :
  In q (queries_of r ref) ->
  words q = None /\ (exists c, cites_id q = Some c) /\
  exists k : nat, start q = Some (20 * Z.of_nat k)%Z.
Proof.
  destruct (selected r ref) eqn:Hsel.
  - apply selected_true_iff in Hsel as Hsel'.
    destruct Hsel' as (c & n & Hc & Hn & _).
    rewrite (queries_of_selected r ref c n Hc Hn Hsel), py_range_offsets.
    rewrite map_map, in_map_iff. intros (k & <- & _). cbn. eauto.
  - rewrite (queries_of_unselected _ _ Hsel). intros [].
Qed.

(** X10. Every query of the Resolver goes out before the first query of
    the Citer Fetcher: [do_check] sends one title search per entry, in the
    order of the bibliography, and only then page queries, each for the
    citers of some cluster identifier from a multiple of 20.  When it ends
    with [SystemExit] no page query was sent. *)
Theorem do_check_query_order titles w file cookie_file r :
  let run := do_check (init titles w file r cookie_file) in
  exists page_queries,
    sent (snd run) =
      map (fun t => {| words := Some t; cites_id := None; start := None |}) titles
      ++ page_queries /\
    Forall (fun q => words q = None /\ (exists c, cites_id q = Some c) /\
                     exists k : nat, start q = Some (20 * Z.of_nat k)%Z)
           page_queries /\
    (fst run = inl SystemExit -> page_queries = []).
Proof.
  destruct (init_eq titles w file r cookie_file) as [cj ->].
  rewrite do_check_eq. cbv zeta. rewrite map_map.
  change (map (fun x => title_query (loaded_entry x)) titles)
    with (map (fun t => {| words := Some t; cites_id := None; start := None |})
              titles).
  destruct (Nat.eqb _ 0); cbn [fst snd sent].
  - exists []. rewrite app_nil_r. repeat split. constructor.
  - eexists. split; [reflexivity|]. split; [|discriminate].
    apply List.Forall_forall. intros q Hq.
    apply in_flat_map in Hq as (ref & _ & Hq).
    eapply queries_of_shape, Hq.
Qed.

Lemma queries_of_length r ref :
  (Z.of_nat (length (queries_of r ref)) <= Z.max 0 ((r + 18) / 20))%Z.
Proof.
  destruct (selected r ref) eqn:Hsel.
  - apply selected_true_iff in Hsel as Hsel'.
    destruct Hsel' as (c & n & Hc & Hn & Hlt).
    rewrite (queries_of_selected r ref c n Hc Hn Hsel), length_map,
      py_range_length.
    unfold range_length. destruct (0 <? n)%Z eqn:Hpos; [|lia].
    apply Z.ltb_lt in Hpos.
    assert ((n - 0 - 1) / 20 <= (r - 2) / 20)%Z
      by (apply Z.div_le_mono; lia).
    replace (r + 18)%Z with (r - 2 + 1 * 20)%Z by lia.
    rewrite Z.div_add by lia. lia.
  - rewrite (queries_of_unselected _ _ Hsel). cbn. lia.
Qed.

Lemma flat_map_queries_length r es :
  (Z.of_nat (length (flat_map (queries_of r) es))
   <= Z.of_nat (length es) * Z.max 0 ((r + 18) / 20))%Z.
Proof.
  induction es as [|ref es IH]; cbn [flat_map length]; [lia|].
  rewrite length_app. pose proof (queries_of_length r ref). lia.
Qed.

(** X11. [rmax] bounds the traffic: a run of [do_check] over a bibliography
    of N entries sends at most N title searches and, per entry, at most
    [(rmax + 18) / 20] page queries (3 for the default [rmax] of 50). *)
Theorem rmax_bounds_queries titles w file cookie_file r :
  (Z.of_nat (length (sent (snd (do_check (init titles w file r cookie_file)))))
   <= Z.of_nat (length titles) * (1 + Z.max 0 ((r + 18) / 20)))%Z.
Proof.
  destruct (init_eq titles w file r cookie_file) as [cj ->].
  rewrite do_check_eq. cbv zeta.
  destruct (Nat.eqb _ 0); cbn [snd sent].
  - rewrite !length_map. nia.
  - rewrite length_app, !length_map.
    pose proof (flat_map_queries_length r
      (zip_with resolve_with
         (fst (responses (map title_query (map loaded_entry titles)) w))
         (map loaded_entry titles))) as Hlen.
    rewrite length_zip_with, responses_length, !length_map in Hlen.
    rewrite Nat.min_id in Hlen. lia.
Qed.

(** ** More on the counter *)

Lemma count_element_total k c :
  fold_right Z.add 0%Z (map snd (count_element k c)) =
  (fold_right Z.add 0%Z (map snd c) + 1)%Z.
Proof.
  induction c as [|[k0 n] c IH]; cbn; [reflexivity|].
  destruct (decide (k = k0)); cbn; [lia|]. rewrite IH. lia.
Qed.

Lemma count_element_positive k c :
  Forall (fun kc => (1 <= snd kc)%Z) c ->
  Forall (fun kc => (1 <= snd kc)%Z) (count_element k c).
Proof.
  induction 1 as [|[k0 n] c Hn Hc IH]; cbn.
  - constructor; [cbn; lia|constructor].
  - destruct (decide (k = k0)); constructor; cbn in *; auto; lia.
Qed.

Lemma count_element_In_keys k c k' :
  In k' (map fst (count_element k c)) <-> k' = k \/ In k' (map fst c).
Proof.
  rewrite count_element_keys, in_app_iff.
  destruct (decide (k ∈ map fst c)) as [Hin|Hnin]; cbn.
  - apply list_elem_of_In in Hin. intuition (subst; auto).
  - intuition.
Qed.

Lemma Counter_of_snoc l k : Counter_of (l ++ [k]) = count_element k (Counter_of l).
Proof. unfold Counter_of. rewrite fold_left_app. reflexivity. Qed.

Lemma Counter_of_keys l k : In k (map fst (Counter_of l)) <-> In k l.
Proof.
  induction l as [|k0 l IH] using rev_ind; [reflexivity|].
  rewrite Counter_of_snoc, count_element_In_keys, in_app_iff, IH. cbn.
  intuition.
Qed.

(** X12. [find_common] loses and invents nothing: the counts add up to the
    number of citers in all [cited_by] lists, every record in the counter
    has a count of at least 1, and the records of the counter are exactly
    those that occur in some list. *)
Theorem find_common_keeps_every_citer (st : bibchecker) es :
  bibtex_db st = Some es ->
  exists c,
    counter (snd (find_common st)) = Some c /\
    let citers := concat (omap cited_by es) in
    fold_right Z.add 0%Z (map snd (items c)) = Z.of_nat (length citers) /\
    (forall k n, In (k, n) (items c) -> (1 <= n)%Z) /\
    (forall k, In k (map fst (items c)) <-> In k citers).
Proof.
  destruct st as [qa bf r db c0 bt cj w s out fl]. intros Hdb.
  cbn in Hdb. subst db. rewrite find_common_eq. cbn [snd counter].
  eexists. split; [reflexivity|]. cbv zeta. rewrite citations_list_concat.
  unfold items. generalize (concat (omap cited_by es)). intros l.
  split; [|split].
  - induction l as [|k l IH] using rev_ind; [reflexivity|].
    rewrite Counter_of_snoc, count_element_total, IH, length_app. cbn. lia.
  - assert (Hpos : Forall (fun kc => (1 <= snd kc)%Z) (Counter_of l)).
    { induction l as [|k l IH] using rev_ind; [constructor|].
      rewrite Counter_of_snoc. apply count_element_positive, IH. }
    intros k n Hin. rewrite List.Forall_forall in Hpos. apply (Hpos _ Hin).
  - intros k. apply Counter_of_keys.
Qed.

(** X13. The counter, and with it the printed report, lists the citer
    records in the order in which they first occur in the [cited_by]
    lists, each once. *)
Theorem counter_order_first_seen (st : bibchecker) es :
  bibtex_db st = Some es ->
  exists c,
    counter (snd (find_common st)) = Some c /\
    map fst (items c) =
    rev (nodup citer_eq_dec (rev (concat (omap cited_by es)))).
Proof.
  destruct st as [qa bf r db c0 bt cj w s out fl]. intros Hdb.
  cbn in Hdb. subst db. rewrite find_common_eq. cbn [snd counter].
  eexists. split; [reflexivity|]. rewrite citations_list_concat.
  unfold items. generalize (concat (omap cited_by es)). intros l.
  induction l as [|k l IH] using rev_ind; [reflexivity|].
  rewrite Counter_of_snoc, count_element_keys, rev_app_distr. cbn [rev app nodup].
  destruct (decide (k ∈ map fst (Counter_of l))) as [Hin|Hnin];
    destruct (in_dec citer_eq_dec k (rev l)) as [Hin'|Hnin'].
  - rewrite app_nil_r. exact IH.
  - exfalso. apply Hnin'. apply in_rev. rewrite rev_involutive.
    apply Counter_of_keys, list_elem_of_In, Hin.
  - exfalso. apply Hnin. apply list_elem_of_In, Counter_of_keys, in_rev, Hin'.
  - cbn [rev]. rewrite IH. reflexivity.
Qed.

Lemma occurrences_NoDup l k :
  NoDup l -> occurrences l k = if decide (k ∈ l) then 1%Z else 0%Z.
Proof.
  intros Hnd. unfold occurrences.
  apply NoDup_ListNoDup in Hnd.
  pose proof (proj1 (NoDup_count_occ citer_eq_dec l) Hnd k) as Hle.
  pose proof (count_occ_In citer_eq_dec l k) as Hin.
  destruct (decide (k ∈ l)) as [Hk|Hk].
  - apply list_elem_of_In, Hin in Hk. lia.
  - rewrite list_elem_of_In, Hin in Hk. lia.
Qed.

Lemma occurrences_app l1 l2 k :
  occurrences (l1 ++ l2) k = (occurrences l1 k + occurrences l2 k)%Z.
Proof. unfold occurrences. rewrite count_occ_app. lia. Qed.

Lemma citers_cons (ref : Reference) es :
  concat (omap cited_by (ref :: es)) =
  default [] (cited_by ref) ++ concat (omap cited_by es).
Proof. cbn. destruct (cited_by ref); reflexivity. Qed.

(** X14. When no [cited_by] list holds a citer twice, the count of a citer
    record is the number of references it cites, that is the number of
    references whose [cited_by] contains it. *)
Theorem count_is_number_of_cited_references (st : bibchecker) es :
  bibtex_db st = Some es ->
  Forall (fun ref => NoDup (default [] (cited_by ref))) es ->
  exists c,
    counter (snd (find_common st)) = Some c /\
    forall k,
      counter_get c k =
      Z.of_nat (length (List.filter
                          (fun ref => bool_decide (k ∈ default [] (cited_by ref)))
                          es)).
Proof.
  destruct st as [qa bf r db c0 bt cj w s out fl]. intros Hdb Hnd.
  cbn in Hdb. subst db. rewrite find_common_eq. cbn [snd counter].
  eexists. split; [reflexivity|]. intros k.
  rewrite counter_get_Counter_of, citations_list_concat.
  induction Hnd as [|ref es Href _ IH]; [reflexivity|].
  rewrite citers_cons, occurrences_app, IH, (occurrences_NoDup _ k Href).
  cbn [List.filter].
  destruct (decide (k ∈ default [] (cited_by ref))) as [Hk|Hk].
  - rewrite bool_decide_eq_true_2 by exact Hk. cbn [length]. lia.
  - rewrite bool_decide_eq_false_2 by exact Hk. lia.
Qed.

(** ** Configuration and paging *)

Lemma run_keeps_configuration titles file out r cj w :
  let st' := snd ((do_check >>
                   match out with
                   | Some path => save_results path
                   | None => print_results
                   end)
                    (Bibchecker [] (Some file) r None None titles cj w [] [] None)) in
  bibfile st' = Some file /\ rmax st' = r /\ bib_titles st' = titles /\
  cookie_jar st' = cj.
Proof.
  unfold bind at 1. rewrite do_check_eq. cbv zeta.
  destruct (Nat.eqb _ 0); [cbn; auto|].
  destruct out as [path|].
  - erewrite save_results_writes_nothing by reflexivity. cbn. auto.
  - rewrite print_results_eq. cbn. auto.
Qed.

(** X15. The options of the command line stay as given for the whole run,
    in either mode and however the run ends: [bibfile] and [rmax] are those
    passed to [__init__], and the cookie jar is the file named with [-c],
    or untouched when the option is absent or names the empty string. *)
Theorem main_keeps_configuration titles w file out cookie_file r :
  let st' := snd (main titles w file out cookie_file r) in
  bibfile st' = Some file /\ rmax st' = r /\
  cookie_jar st' =
    match cookie_file with
    | Some f => if String.eqb f "" then None else Some f
    | None => None
    end.
Proof.
  unfold main, init. destruct cookie_file as [f|].
  - destruct (String.eqb f "");
      [destruct (run_keeps_configuration titles file out r None w)
         as (Hbf & Hr & _ & Hcj)
      |destruct (run_keeps_configuration titles file out r (Some f) w)
         as (Hbf & Hr & _ & Hcj)]; auto.
  - destruct (run_keeps_configuration titles file out r None w)
      as (Hbf & Hr & _ & Hcj); auto.
Qed.

Lemma py_range_page_count n :
  length (py_range 0 n 20) = Z.to_nat ((n + 19) / 20).
Proof.
  apply Nat2Z.inj. rewrite py_range_length. unfold range_length.
  destruct (0 <? n)%Z eqn:Hn.
  - apply Z.ltb_lt in Hn.
    replace (n + 19)%Z with (n - 0 - 1 + 1 * 20)%Z by lia.
    rewrite Z.div_add by lia.
    assert (0 <= (n - 0 - 1) / 20)%Z by (apply Z.div_pos; lia). lia.
  - apply Z.ltb_ge in Hn.
    assert ((n + 19) / 20 < 1)%Z by (apply Z.div_lt_upper_bound; lia). lia.
Qed.

(** X16. The fetch for a reference with [n] citations costs [n / 20]
    rounded up page queries, and none when [n] is zero or negative; the
    service and the query log move by exactly that many queries. *)
Theorem get_citers_page_count (st : bibchecker) es i ref c n total j :
  bibtex_db st = Some es ->
  es !! i = Some ref ->
  cluster_id ref = Some (Some c) ->
  num_citations ref = Some (Some n) ->
  exists st',
    get_citers_body total (j, i) st = (inr tt, st') /\
    length (sent st') = length (sent st) + Z.to_nat ((n + 19) / 20) /\
    ((n <= 0)%Z -> sent st' = sent st /\ scholar st' = scholar st /\
                   bibtex_db st' = Some (<[i := setitem_cited_by [] ref]> es)).
Proof.
  destruct st as [qa bf r db c0 bt cj w s out fl]. intros Hdb Hi Hc Hn.
  cbn in Hdb. subst db. cbn [sent scholar bibtex_db].
  apply list_elem_of_split_length in Hi as (done & todo & -> & ->).
  rewrite (get_citers_body_eq total j done ref todo (Some c) n) by assumption.
  cbv zeta. eexists. split; [reflexivity|]. cbn [sent scholar bibtex_db].
  split.
  - rewrite length_app, length_map, py_range_page_count. reflexivity.
  - intros Hle.
    assert (Hnil : py_range 0 n 20 = []).
    { apply length_zero_iff_nil. rewrite py_range_page_count.
      assert ((n + 19) / 20 < 1)%Z by (apply Z.div_lt_upper_bound; lia). lia. }
    rewrite Hnil. cbn. rewrite app_nil_r, insert_middle. auto.
Qed.

End Bibchecker.

(** * The script on the sample service *)

Local Abbreviation sample_fresh :=
  (init ["A"; "B"]%string tt "refs.bib" 50 None).
Local Abbreviation sample_loaded := (snd (load_bibfile sample_fresh)).
Local Abbreviation sample_resolved :=
  (snd (update_db sample_scholar sample_loaded)).
Local Abbreviation sample_fetched :=
  (snd (get_citers sample_scholar sample_resolved)).

(** C2. With the sample service the counter holds X twice and Y once.  In
    save mode the script opens the output file and then stops with
    [TypeError] at the entry for X: nothing is written. *)
Theorem save_results_raises_TypeError :
  let run := main sample_scholar ["A"; "B"]%string tt "refs.bib"
               (Some "out.txt"%string) None 50 in
  fst run = inl TypeError /\
  counter (snd run) = Some [((Some "cX", "X"), 2%Z); ((Some "cY", "Y"), 1%Z)]%string /\
  outfile (snd run) = Some ("out.txt"%string, []).
Proof. vm_compute. repeat split. Qed.

Lemma print_results_rows_witness :
  exists c st1 st2,
    find_common sample_fetched = (inr tt, st1) /\ counter st1 = Some c /\
    print_results st1 = (inr tt, st2) /\
    stdout st2 =
      stdout sample_fetched ++ (header +:+ LF)
        :: map (fun kc => format_row (snd kc) (snd (fst kc)) +:+ LF)
               (List.filter (fun kc => (1 <? snd kc)%Z) (items c)).
Proof.
  destruct (print_results_rows sample_fetched _ ltac:(vm_compute; reflexivity))
    as (c & st1 & st2 & Hfind & Hc & Hprint & Hout & _).
  exists c, st1, st2. auto.
Defined.

Lemma update_db_resolves_every_entry_witness :
  exists es',
    bibtex_db (snd (update_db sample_scholar sample_loaded)) = Some es' /\
    length es' = 2.
Proof.
  destruct (update_db_resolves_every_entry sample_scholar sample_loaded _
              ltac:(vm_compute; reflexivity)) as (es' & Hdb & Hlen & _).
  exists es'. split; [exact Hdb|exact Hlen].
Defined.

Lemma update_db_exits_when_nothing_resolved_witness :
  exists st',
    main sample_scholar ["C"]%string tt "refs.bib" None None 50
      = (inl SystemExit, st') /\
    counter st' = None /\ outfile st' = None.
Proof.
  destruct (update_db_exits_when_nothing_resolved sample_scholar
              ["C"]%string tt "refs.bib" None None 50)
    as (es1 & Hdb & Hexit & _).
  destruct Hexit as (st' & Hmain & _ & _ & _ & _ & _ & Hc & Hf).
  - vm_compute in Hdb. injection Hdb as <-. repeat constructor.
  - exists st'. auto.
Defined.

Lemma get_citers_selects_below_rmax_witness :
  exists st' es',
    get_citers sample_scholar sample_resolved = (inr tt, st') /\
    bibtex_db st' = Some es' /\
    fst (to_check sample_resolved) = inr [0; 1] /\
    exists citers,
      es' !! 0 =
      Some (setitem_cited_by citers
              {| title := "A"; num_citations := Some (Some 10%Z);
                 cluster_id := Some (Some "cA"); cited_by := None |}%string).
Proof.
  destruct (get_citers_selects_below_rmax sample_scholar sample_resolved _
              ltac:(vm_compute; reflexivity)) as (_ & _ & Hexact).
  destruct Hexact as (st' & es' & Hget & Hdb & Hcheck & _ & Hsel & _).
  - constructor; [|constructor; [|constructor]]; right.
    + exists "cA"%string, 10%Z. split; reflexivity.
    + exists "cB"%string, 10%Z. split; reflexivity.
  - exists st', es'. split; [exact Hget|]. split; [exact Hdb|].
    split; [exact Hcheck|]. apply (Hsel 0); reflexivity.
Defined.

(** The claim C5 read for every reference sequence: here the first
    reference has a cluster identifier and 10 citations, below [rmax], but
    the second has a cluster identifier with a [None] count; the
    comprehension raises and the first reference is not selected. *)
Lemma get_citers_skips_qualifying_reference :
  let a := {| title := "A"; num_citations := Some (Some 10%Z);
              cluster_id := Some (Some "cA"); cited_by := None |}%string in
  let b := {| title := "B"; num_citations := Some None;
              cluster_id := Some (Some "cB"); cited_by := None |}%string in
  let st := with_bibtex_db (Some [a; b]) sample_fresh in
  selected (rmax st) a = true /\
  fst (to_check st) = inl TypeError /\
  get_citers sample_scholar st = (inl TypeError, st) /\
  ~ (exists checked, fst (to_check st) = inr checked /\ In 0 checked).
Proof.
  cbv zeta. split; [reflexivity|]. split; [reflexivity|].
  split; [reflexivity|]. intros (checked & Hcheck & _). discriminate.
Qed.

(** The claim C3 read as both fields non-null or both null: the service
    here returns a result with 5 citations and no cluster identifier, and
    the reference ends with an integer count and a [None] cluster
    identifier. *)
Lemma update_db_count_without_cluster_id :
  let st := snd (load_bibfile (init ["A"]%string tt "refs.bib" 50 None)) in
  bibtex_db (snd (update_db unclustered_scholar st)) =
    Some [{| title := "A"; num_citations := Some (Some 5%Z);
             cluster_id := Some None; cited_by := None |}%string] /\
  ~ (exists es',
       bibtex_db (snd (update_db unclustered_scholar st)) = Some es' /\
       Forall (fun ref =>
                 (exists n c, num_citations ref = Some (Some n) /\
                              cluster_id ref = Some (Some c)) \/
                 (num_citations ref = Some None /\ cluster_id ref = Some None))
              es').
Proof.
  cbv zeta. split; [reflexivity|].
  intros (es' & Hdb & Hall). vm_compute in Hdb. injection Hdb as <-.
  inversion Hall as [|ref l [(n & c & _ & Hc)|[Hn _]] _]; discriminate.
Qed.

Lemma get_citers_pages_every_20_witness :
  let ref := {| title := "A"; num_citations := Some (Some 45%Z);
                cluster_id := Some (Some "cA"); cited_by := None |}%string in
  exists st' es',
    get_citers sample_scholar (with_bibtex_db (Some [ref]) sample_fresh)
      = (inr tt, st') /\
    bibtex_db st' = Some es' /\
    sent st' =
      [{| words := None; cites_id := Some "cA"%string; start := Some 0%Z |};
       {| words := None; cites_id := Some "cA"%string; start := Some 20%Z |};
       {| words := None; cites_id := Some "cA"%string; start := Some 40%Z |}] /\
    es' !! 0 =
      Some (setitem_cited_by [(Some "cX", "X"); (Some "cY", "Y")]%string ref).
Proof.
  intros ref.
  destruct (get_citers_pages_every_20 sample_scholar
              (with_bibtex_db (Some [ref]) sample_fresh) [ref] 0 ref
              "cA"%string 45%Z eq_refl)
    as (st' & es' & Hget & Hdb & Hsent & _ & Hcited & _).
  - constructor; [|constructor]. right. exists "cA"%string, 45%Z.
    split; reflexivity.
  - reflexivity.
  - reflexivity.
  - reflexivity.
  - reflexivity.
  - exists st', es'. split; [exact Hget|]. split; [exact Hdb|].
    split; [exact Hsent|exact Hcited].
Defined.


Lemma find_common_counts_occurrences_witness :
  let a := {| title := "A"; num_citations := Some (Some 10%Z);
              cluster_id := Some (Some "cA");
              cited_by := Some [(Some "cX", "X"); (Some "cY", "Y")] |}%string in
  let b := {| title := "B"; num_citations := Some (Some 10%Z);
              cluster_id := Some (Some "cB");
              cited_by := Some [(Some "cX", "X")] |}%string in
  exists c c',
    find_common sample_fetched = (inr tt, with_counter (Some c) sample_fetched) /\
    find_common (with_bibtex_db (Some [b; a]) sample_fetched)
      = (inr tt, with_counter (Some c')
                   (with_bibtex_db (Some [b; a]) sample_fetched)) /\
    forall k, counter_get c' k = counter_get c k.
Proof.
  intros a b.
  destruct (find_common_counts_occurrences sample_fetched [a; b] [b; a]
              ltac:(vm_compute; reflexivity) (perm_swap b a []))
    as (c & c' & Hc & _ & Hc' & Hsame).
  exists c, c'. split; [exact Hc|]. split; [exact Hc'|exact Hsame].
Defined.

Lemma cited_by_iff_selected_witness :
  exists es c,
    bibtex_db (snd (do_check sample_scholar sample_fresh)) = Some es /\
    counter (snd (do_check sample_scholar sample_fresh)) = Some c /\
    length es = 2.
Proof.
  destruct (cited_by_iff_selected sample_scholar ["A"; "B"]%string tt "refs.bib"
              None 50 (snd (do_check sample_scholar sample_fresh))
              ltac:(vm_compute; reflexivity))
    as (es & c & Hdb & Hc & _ & Hlen & _).
  exists es, c. split; [exact Hdb|]. split; [exact Hc|exact Hlen].
Defined.

Lemma resolved_count_is_integer_witness :
  fst (get_citers sample_scholar (snd (update_db sample_scholar sample_loaded)))
  = inr tt.
Proof.
  destruct (resolved_count_is_integer sample_scholar sample_loaded _
              ltac:(vm_compute; reflexivity)) as (es' & _ & _ & _ & Hrun).
  exact Hrun.
Defined.

(** ** The further properties on the sample service *)

Lemma methods_out_of_order_witness :
  get_citers sample_scholar sample_fresh = (inl AssertionError, sample_fresh) /\
  print_results sample_fresh = (inl AssertionError, sample_fresh).
Proof.
  destruct (methods_out_of_order sample_scholar sample_fresh "out.txt"%string)
    as [Hdb Hc].
  destruct (Hdb eq_refl) as (_ & Hget & _). destruct (Hc eq_refl) as [Hprint _].
  split; [exact Hget|exact Hprint].
Defined.

Lemma get_citers_before_update_db_witness :
  bind load_bibfile (fun _ => get_citers sample_scholar) sample_fresh =
  (inl KeyError, sample_loaded).
Proof.
  exact (get_citers_before_update_db sample_scholar sample_fresh
           "refs.bib"%string eq_refl).
Defined.

Lemma get_citers_None_count_witness :
  let ref := {| title := "A"; num_citations := Some None;
                cluster_id := Some (Some "cA"); cited_by := None |}%string in
  get_citers sample_scholar (with_bibtex_db (Some [ref]) sample_fresh) =
  (inl TypeError, with_bibtex_db (Some [ref]) sample_fresh).
Proof.
  intros ref.
  apply (get_citers_None_count sample_scholar
           (with_bibtex_db (Some [ref]) sample_fresh) [ref] eq_refl).
  - constructor; [split; discriminate|constructor].
  - constructor. split; [exists "cA"%string; reflexivity|reflexivity].
Defined.

Lemma get_citers_nothing_selected_witness :
  let a := {| title := "A"; num_citations := Some (Some 60%Z);
              cluster_id := Some (Some "cA"); cited_by := None |}%string in
  let b := {| title := "B"; num_citations := Some None;
              cluster_id := Some None; cited_by := None |}%string in
  get_citers sample_scholar (with_bibtex_db (Some [a; b]) sample_fresh) =
  (inr tt, with_stdout [LF] (with_bibtex_db (Some [a; b]) sample_fresh)).
Proof.
  intros a b.
  apply (get_citers_nothing_selected sample_scholar
           (with_bibtex_db (Some [a; b]) sample_fresh) [a; b] eq_refl).
  constructor; [|constructor; [|constructor]].
  - right. exists "cA"%string, 60%Z. repeat split. cbn. lia.
  - left. split; [reflexivity|discriminate].
Defined.


Lemma print_run_never_crashes_witness :
  fst (bind (update_db sample_scholar)
         (fun _ => bind (get_citers sample_scholar)
                     (fun _ => bind find_common (fun _ => print_results)))
         sample_loaded) = inr tt.
Proof.
  destruct (print_run_never_crashes sample_scholar sample_loaded
              ["A"; "B"]%string eq_refl) as [[Hexit|Hok] _].
  - vm_compute in Hexit. discriminate.
  - exact Hok.
Defined.


Lemma print_mode_output_witness :
  exists es c,
    bibtex_db (snd (main sample_scholar ["A"; "B"]%string tt "refs.bib"
                      None None 50)) = Some es /\
    counter (snd (main sample_scholar ["A"; "B"]%string tt "refs.bib"
                    None None 50)) = Some c.
Proof.
  destruct (print_mode_output sample_scholar ["A"; "B"]%string tt "refs.bib"
              None 50 _ ltac:(vm_compute; reflexivity))
    as (es & c & Hdb & Hc & _).
  exists es, c. split; [exact Hdb|exact Hc].
Defined.

Lemma find_common_keeps_every_citer_witness :
  exists c,
    counter (snd (find_common sample_fetched)) = Some c /\
    fold_right Z.add 0%Z (map snd (items c)) = 3%Z.
Proof.
  destruct (find_common_keeps_every_citer sample_fetched _
              ltac:(vm_compute; reflexivity)) as (c & Hc & Hsum & _).
  exists c. split; [exact Hc|exact Hsum].
Defined.

Lemma counter_order_first_seen_witness :
  exists c,
    counter (snd (find_common sample_fetched)) = Some c /\
    map fst (items c) = [(Some "cX", "X"); (Some "cY", "Y")]%string.
Proof.
  destruct (counter_order_first_seen sample_fetched _
              ltac:(vm_compute; reflexivity)) as (c & Hc & Hkeys).
  exists c. split; [exact Hc|exact Hkeys].
Defined.

Lemma count_is_number_of_cited_references_witness :
  exists c,
    counter (snd (find_common sample_fetched)) = Some c /\
    counter_get c (Some "cX", "X")%string = 2%Z.
Proof.
  assert (Hnd : Forall (fun ref => NoDup (default [] (cited_by ref)))
                  [{| title := "A"; num_citations := Some (Some 10%Z);
                      cluster_id := Some (Some "cA");
                      cited_by := Some [(Some "cX", "X"); (Some "cY", "Y")] |};
                   {| title := "B"; num_citations := Some (Some 10%Z);
                      cluster_id := Some (Some "cB");
                      cited_by := Some [(Some "cX", "X")] |}]%string).
  { constructor; [|constructor; [|constructor]];
      apply NoDup_ListNoDup; cbn;
      repeat (constructor; [cbn; intuition discriminate|]); constructor. }
  destruct (count_is_number_of_cited_references sample_fetched _
              ltac:(vm_compute; reflexivity) Hnd) as (c & Hc & Hcount).
  exists c. split; [exact Hc|apply Hcount].
Defined.

Lemma get_citers_page_count_witness :
  let ref := {| title := "A"; num_citations := Some (Some 45%Z);
                cluster_id := Some (Some "cA"); cited_by := None |}%string in
  exists st',
    get_citers_body sample_scholar 1 (0, 0)
      (with_bibtex_db (Some [ref]) sample_fresh) = (inr tt, st') /\
    length (sent st') = 3.
Proof.
  intros ref.
  destruct (get_citers_page_count sample_scholar
              (with_bibtex_db (Some [ref]) sample_fresh) [ref] 0 ref
              "cA"%string 45%Z 1 0 eq_refl eq_refl eq_refl eq_refl)
    as (st' & Hbody & Hlen & _).
  exists st'. split; [exact Hbody|exact Hlen].
Defined.
